(** * Asset download adapter: tiered fallback, retry and error classification

    A shallow embedding of [app/services/reverse/assets_download.py]
    ([AssetsDownloadReverse]) together with the properties of its
    specification.

    Conventions of the embedding:
    - Python [int] is [Z]; [bytes] is [list byte]; [str] is [string], each
      character a code point below U+0100 (the 8-bit characters of the
      standard library, read as Latin-1), on which [lower] and [strip] act
      as Python does; text with characters from U+0100 on is outside the
      model;
    - a Python [dict] is an association list in insertion order with unique
      keys ([dict_set] overwrites in place or appends), since the order of
      iteration of a dict is observable in [_urllib_get];
    - [async] code is sequential state passing: a computation takes the state
      (the outside world and the trace of what the code did) and returns a
      result or a raised exception together with the new state;
    - only exceptions deriving from [Exception] are modelled: they are the
      ones the [except Exception] clauses of the source catch. *)

From Stdlib Require Import String Ascii Init.Byte DecimalString.
From Stdlib Require Import ZArith List Bool Lia.
From Equations Require Import Equations.
Import ListNotations.

Local Open Scope string_scope.
Local Open Scope list_scope.
Local Open Scope Z_scope.

(** ** Python values and built-ins used by the module *)

Module Py.

(** The values that travel through configuration lookups and through the
    [details] mapping of an exception. *)
Inductive pyval : Type :=
| PyNone
| PyInt (z : Z)
| PyStr (s : string).

(** Truth value testing: [None], [0] and [""] are false. *)
Definition truthy (v : pyval) : bool :=
  match v with
  | PyNone => false
  | PyInt z => negb (z =? 0)
  | PyStr s => negb (s =? "")%string
  end.

(** [a or b] *)
Definition py_or (a b : pyval) : pyval := if truthy a then a else b.

(** [a == b] on the modelled values. *)
Definition py_eqb (a b : pyval) : bool :=
  match a, b with
  | PyNone, PyNone => true
  | PyInt x, PyInt y => x =? y
  | PyStr x, PyStr y => (x =? y)%string
  | _, _ => false
  end.

(** *** Strings *)

(** The upper-case letters below U+0100: [A] to [Z], and U+00C0 to U+00DE
    but for the multiplication sign U+00D7.  Each has its lower-case letter
    32 places further. *)
Definition is_upper (c : ascii) : bool :=
  let n := nat_of_ascii c in
  ((65 <=? n)%nat && (n <=? 90)%nat)
  || ((192 <=? n)%nat && (n <=? 222)%nat && negb (n =? 215)%nat).

Definition lower_ascii (c : ascii) : ascii :=
  if is_upper c then ascii_of_nat (nat_of_ascii c + 32) else c.

(** [s.lower()] *)
Fixpoint lower (s : string) : string :=
  match s with
  | EmptyString => EmptyString
  | String c rest => String (lower_ascii c) (lower rest)
  end.

(** White space as [str.strip()] sees it below U+0100: TAB, LF, VT, FF, CR,
    the four separators FS, GS, RS, US, the space, the next-line control
    U+0085 and the no-break space U+00A0. *)
Definition is_space (c : ascii) : bool :=
  let n := nat_of_ascii c in
  ((9 <=? n)%nat && (n <=? 13)%nat) || ((28 <=? n)%nat && (n <=? 32)%nat)
  || (n =? 133)%nat || (n =? 160)%nat.

Fixpoint lstrip (s : string) : string :=
  match s with
  | EmptyString => EmptyString
  | String c rest => if is_space c then lstrip rest else s
  end.

Fixpoint rstrip (s : string) : string :=
  match s with
  | EmptyString => EmptyString
  | String c rest =>
      match rstrip rest with
      | EmptyString => if is_space c then EmptyString else String c EmptyString
      | r => String c r
      end
  end.

(** [s.strip()] *)
Definition strip (s : string) : string := rstrip (lstrip s).

(** [s.startswith(p)] *)
Fixpoint startswith (s p : string) {struct p} : bool :=
  match p with
  | EmptyString => true
  | String a p' =>
      match s with
      | EmptyString => false
      | String b s' => Ascii.eqb a b && startswith s' p'
      end
  end.

(** [str(n)] for an [int]. *)
Definition str_of_int (z : Z) : string :=
  DecimalString.NilZero.string_of_int (Z.to_int z).

(** *** Dictionaries: insertion-ordered, unique keys *)

Definition dict (V : Type) : Type := list (string * V).

(** [d.get(k)] *)
Fixpoint dict_get {V} (d : dict V) (k : string) : option V :=
  match d with
  | [] => None
  | (k', v) :: rest => if (k' =? k)%string then Some v else dict_get rest k
  end.

(** [k in d] *)
Definition dict_mem {V} (d : dict V) (k : string) : bool :=
  match dict_get d k with Some _ => true | None => false end.

(** [d[k] = v]: an existing key keeps its position, a new key goes last. *)
Fixpoint dict_set {V} (d : dict V) (k : string) (v : V) : dict V :=
  match d with
  | [] => [(k, v)]
  | (k', v') :: rest =>
      if (k' =? k)%string then (k, v) :: rest
      else (k', v') :: dict_set rest k v
  end.

(** [for k, v in l: d[g(k)] = v] *)
Definition fill {V} (g : string -> string) (d : dict V)
  (l : list (string * V)) : dict V :=
  fold_left (fun d kv => dict_set d (g (fst kv)) (snd kv)) l d.

(** [dict(items)] for a list of pairs. *)
Definition dict_of_items {V} (items : list (string * V)) : dict V :=
  fill (fun k => k) [] items.

Definition keys {V} (d : dict V) : list string := map fst d.

(** [not d] *)
Definition is_nil {V} (d : dict V) : bool :=
  match d with [] => true | _ :: _ => false end.

(** *** Sequences *)

(** Normalisation of one bound of a slice over a sequence of length [len]:
    a negative bound counts from the end, and the result is clamped to
    [0 .. len]. *)
Definition slice_bound (len k : Z) : Z :=
  let k' := if k <? 0 then k + len else k in
  Z.max 0 (Z.min len k').

(** [l[i:j]] *)
Definition slice {A} (l : list A) (i j : Z) : list A :=
  let len := Z.of_nat (length l) in
  let lo := slice_bound len i in
  let hi := slice_bound len j in
  firstn (Z.to_nat (hi - lo)) (skipn (Z.to_nat lo) l).

(** [range(start, stop, step)] for a positive step: the values
    [start, start + step, ...] below [stop]. *)
Equations? range_up (i stop step : Z) : list Z by wf (Z.to_nat (stop - i)) lt :=
  range_up i stop step with Z_lt_dec 0 step, Z_lt_dec i stop := {
    | left _, left _ := i :: range_up (i + step) stop step;
    | _, _ := [] }.
Proof. lia. Qed.

(** [range(start, stop, step)] for a negative step: the values
    [start, start + step, ...] above [stop]. *)
Equations? range_down (i stop step : Z) : list Z by wf (Z.to_nat (i - stop)) lt :=
  range_down i stop step with Z_lt_dec step 0, Z_lt_dec stop i := {
    | left _, left _ := i :: range_down (i + step) stop step;
    | _, _ := [] }.
Proof. lia. Qed.

(** [range(start, stop, step)]; a zero step raises [ValueError]; [None]
    stands for the raised exception. *)
Definition range (start stop step : Z) : option (list Z) :=
  if step =? 0 then None
  else if 0 <? step then Some (range_up start stop step)
  else Some (range_down start stop step).

End Py.

Import Py.

(** ** The fallback response and its chunk producer *)

(** [AssetsDownloadReverse._SimpleResponse] *)
Record _SimpleResponse : Type := mkSimpleResponse {
  status_code : Z;
  headers : dict string;
  content : list byte
}.

(** The chunk [data[i:i + chunk_size]] the generator yields at index [i], and
    the chunks it yields from index [i] on when [chunk_size] is positive. *)
Definition chunk_at {A} (data : list A) (chunk_size i : Z) : list A :=
  slice data i (i + chunk_size).

Definition chunks_from {A} (data : list A) (chunk_size i : Z) : list (list A) :=
  map (chunk_at data chunk_size)
      (range_up i (Z.of_nat (length data)) chunk_size).

(** [_SimpleResponse.aiter_content(chunk_size)]: the list of the chunks the
    asynchronous generator yields, in order; [None] when iterating raises
    (a zero [chunk_size] makes [range] raise [ValueError]).
    [self.content or b""] is the content itself: an empty [bytes] is the only
    falsy one. *)
Definition aiter_content (self : _SimpleResponse) (chunk_size : Z)
  : option (list (list byte)) :=
  let data := content self in
  match range 0 (Z.of_nat (length data)) chunk_size with
  | None => None
  | Some idx => Some (map (chunk_at data chunk_size) idx)
  end.

(** The default chunk size, [64 * 1024]. *)
Definition default_chunk_size : Z := 64 * 1024.

(** ** Exceptions and results *)

(** Modelled from the spec: [UpstreamException] is declared in
    [app.core.exceptions], outside the file at hand.  It is the spec's
    UpstreamFailure: a descriptive message, a free-form detail mapping and a
    nullable numeric status.  The source reads [e.details] and
    [getattr(e, "status_code", None)]; a missing attribute reads as [None].
    A [details] of [None] and an empty mapping are both falsy and are
    both the empty dictionary here. *)
Record UpstreamException : Type := mkUpstreamException {
  message : string;
  details : dict pyval;
  attr_status_code : pyval
}.

(** What an [except Exception] clause can catch: an [UpstreamException], or
    any other exception, of which the source only uses [type(e).__name__]
    and [str(e)]. *)
Inductive exn : Type :=
| Upstream (u : UpstreamException)
| OtherException (type_name : string) (text : string).

(** [str(e)].  Modelled from the spec: an [UpstreamException] prints as its
    descriptive message. *)
Definition str_exn (e : exn) : string :=
  match e with
  | Upstream u => message u
  | OtherException _ text => text
  end.

(** [type(e).__name__] *)
Definition type_name_of (e : exn) : string :=
  match e with
  | Upstream _ => "UpstreamException"
  | OtherException n _ => n
  end.

(** The outcome of a call: a returned value or a raised exception. *)
Inductive result (A : Type) : Type :=
| Ok (a : A)
| Raise (e : exn).
Arguments Ok {A} a.
Arguments Raise {A} e.

(** ** Requests, raw responses and the trace of the adapter *)

(** The keyword arguments [_single_get] passes to [session.get].  A key that
    the source leaves out of [kwargs] is [None] here. *)
Record get_kwargs : Type := mk_get_kwargs {
  kw_headers : dict string;
  kw_timeout : pyval;
  kw_allow_redirects : bool;
  kw_stream : bool;
  kw_proxies : option (dict string);
  kw_impersonate : option pyval
}.

(** The [status] attribute of the object [urllib.request.urlopen] returns:
    missing, [None], or an [int]. *)
Inductive status_attr : Type :=
| StatusMissing
| StatusNone
| StatusInt (z : Z).

(** What [_do_get] reads from the object [urlopen] returns: the [status]
    attribute, [resp.headers.items()] (every header line, in order, names as
    received) and [resp.read()]. *)
Record urllib_response : Type := mk_urllib_response {
  resp_status : status_attr;
  resp_header_items : list (string * string);
  resp_body : list byte
}.

Inductive level : Type := WARNING | ERROR.

(** What the adapter does to the outside, in order. *)
Inductive event : Type :=
| EvLog (lv : level) (msg : string) (error_type : option string)
| EvGet (url : string) (kw : get_kwargs)
| EvUrlopen (url : string) (hdrs : dict string) (timeout : pyval)
| EvSleep
| EvRecordFail (token : string) (status : pyval) (reason : string).

(** The transport calls among the events: [session.get] and [urlopen]. *)
Definition is_transport_call (ev : event) : bool :=
  match ev with
  | EvGet _ _ | EvUrlopen _ _ _ => true
  | _ => false
  end.

Definition is_record_fail (ev : event) : bool :=
  match ev with EvRecordFail _ _ _ => true | _ => false end.

Definition is_warning_log (ev : event) : bool :=
  match ev with EvLog WARNING _ _ => true | _ => false end.

(** ** Module constants *)

Definition DOWNLOAD_API : string := "https://assets.grok.com".

Definition _CONTENT_TYPES : dict string :=
  [ (".jpg", "image/jpeg");
    (".jpeg", "image/jpeg");
    (".png", "image/png");
    (".webp", "image/webp");
    (".mp4", "video/mp4");
    (".webm", "video/webm") ].

(** ** Pure steps of [request] *)

(** Lines 81-82: [if not file_path.startswith("/"): file_path = f"/{file_path}"] *)
Definition normalize_path (file_path : string) : string :=
  if negb (startswith file_path "/") then ("/" ++ file_path)%string else file_path.

(** Line 83 *)
Definition build_url (file_path : string) : string :=
  (DOWNLOAD_API ++ file_path)%string.

(** [v.strip()] on a configuration value: only a [str] has the method. *)
Definition py_strip (v : pyval) : result string :=
  match v with
  | PyStr s => Ok (strip s)
  | PyInt _ =>
      Raise (OtherException "AttributeError" "'int' object has no attribute 'strip'")
  | PyNone =>
      Raise (OtherException "AttributeError" "'NoneType' object has no attribute 'strip'")
  end.

(** Lines 86-87: [(get_config(key) or "").strip()] *)
Definition stripped_config (v : pyval) : result string :=
  py_strip (py_or v (PyStr "")).

(** Line 88: [asset_proxy or base_proxy] *)
Definition choose_proxy (asset_proxy base_proxy : string) : string :=
  if (asset_proxy =? "")%string then base_proxy else asset_proxy.

(** Line 89: [{"http": proxy_url, "https": proxy_url} if proxy_url else None] *)
Definition make_proxies (proxy_url : string) : option (dict string) :=
  if (proxy_url =? "")%string then None
  else Some [("http", proxy_url); ("https", proxy_url)].

(** Line 92, after the suffix is taken: [_CONTENT_TYPES.get(suffix.lower())] *)
Definition content_type_of_suffix (suffix : string) : option string :=
  dict_get _CONTENT_TYPES (lower suffix).

(** Lines 102-107: the headers of a browser navigation. *)
Definition navigation_headers (h : dict string) : dict string :=
  let h := dict_set h "Cache-Control" "no-cache" in
  let h := dict_set h "Pragma" "no-cache" in
  let h := dict_set h "Priority" "u=0, i" in
  let h := dict_set h "Sec-Fetch-Mode" "navigate" in
  let h := dict_set h "Sec-Fetch-User" "?1" in
  dict_set h "Upgrade-Insecure-Requests" "1".

(** The six assignments of lines 102-107, as a table. *)
Definition NAVIGATION_HEADERS : list (string * string) :=
  [ ("Cache-Control", "no-cache");
    ("Pragma", "no-cache");
    ("Priority", "u=0, i");
    ("Sec-Fetch-Mode", "navigate");
    ("Sec-Fetch-User", "?1");
    ("Upgrade-Insecure-Requests", "1") ].

(** Lines 174-178: the status the handler reads off an [UpstreamException]. *)
Definition failure_status (e : UpstreamException) : pyval :=
  if negb (is_nil (details e)) && dict_mem (details e) "status"
  then match dict_get (details e) "status" with
       | Some st => st
       | None => PyNone
       end
  else attr_status_code e.

Definition download_failed_message (what : string) : string :=
  ("AssetsDownloadReverse: Download failed, " ++ what)%string.

(** Truth value of [proxies]: [None] and an empty mapping are false. *)
Definition proxies_truthy (proxies : option (dict string)) : bool :=
  match proxies with
  | Some p => negb (is_nil p)
  | None => false
  end.

(** ** The minimal client's adaptation of a raw response *)

(** Line 53: [int(getattr(resp, "status", 200) or 200)] *)
Definition adapted_status (a : status_attr) : Z :=
  let got := match a with
             | StatusMissing => PyInt 200
             | StatusNone => PyNone
             | StatusInt z => PyInt z
             end in
  match py_or got (PyInt 200) with
  | PyInt z => z
  | _ => 200
  end.

(** Lines 55-57: the loop over [dict(resp.headers.items()).items()] that
    fills [raw_headers]. *)
Definition lowered_headers (items : list (string * string)) : dict string :=
  fill lower [] (dict_of_items items).




(** Lines 51-65: the triple [_do_get] returns, packed by [_urllib_get]. *)
Definition adapt_response (resp : urllib_response) : _SimpleResponse :=
  {| status_code := adapted_status (resp_status resp);
     headers := lowered_headers (resp_header_items resp);
     content := resp_body resp |}.

(** The timeout a transport call carries. *)
Definition call_timeout (ev : event) : option pyval :=
  match ev with
  | EvGet _ kw => Some (kw_timeout kw)
  | EvUrlopen _ _ timeout => Some timeout
  | _ => None
  end.

(** ** A scripted outside world

    Concrete collaborators on which the adapter can be run: the world is the
    number of transport calls made so far, the transports answer by
    position, and a [curl_cffi] response is known by its status alone. *)

Module Scenario.

Definition session_get (answers : nat -> result Z)
  : unit -> string -> get_kwargs -> nat -> result Z * nat :=
  fun _ _ _ n => (answers n, S n).

Definition urlopen (answers : nat -> result urllib_response)
  : string -> dict string -> pyval -> nat -> result urllib_response * nat :=
  fun _ _ _ n => (answers n, S n).

(** A credential-health service that is down: every call raises. *)
Definition record_fail_down
  : string -> pyval -> string -> nat -> result unit * nat :=
  fun _ _ _ n => (Raise (OtherException "RuntimeError" "token service down"), n).

(** Nothing is configured. *)
Definition no_config : string -> pyval := fun _ => PyNone.

(** Both proxies are configured, with blanks around the asset proxy. *)
Definition proxy_config : string -> pyval :=
  fun key =>
    if (key =? "proxy.asset_proxy_url")%string then PyStr " http://asset:8080 "
    else if (key =? "proxy.base_proxy_url")%string then PyStr "http://base:3128"
    else if (key =? "proxy.browser")%string then PyStr "chrome"
    else if (key =? "asset.download_timeout")%string then PyInt 30
    else PyNone.

(** An asset proxy made of white space only, a no-break space among it, and
    a base proxy. *)
Definition blank_asset_config : string -> pyval :=
  fun key =>
    if (key =? "proxy.asset_proxy_url")%string
    then PyStr (String (ascii_of_nat 160) " ")
    else if (key =? "proxy.base_proxy_url")%string then PyStr "http://base:3128"
    else PyNone.

(** A base proxy that is a number instead of a string. *)
Definition bad_config : string -> pyval :=
  fun key =>
    if (key =? "proxy.base_proxy_url")%string then PyInt 8080 else PyNone.

Definition build_headers (token : string) (content_type : option string)
  (origin referer : string) : dict string :=
  [ ("Cookie", ("sso=" ++ token)%string);
    ("Accept", match content_type with Some t => t | None => "*/*" end);
    ("Origin", origin);
    ("Referer", referer) ].

(** Paths without query, fragment or parameters: [urlparse] leaves them as
    they are. *)
Definition urlparse_path (p : string) : result string := Ok p.

(** The text from the last dot of [s] on. *)
Fixpoint from_last_dot (s : string) : option string :=
  match s with
  | EmptyString => None
  | String c rest =>
      match from_last_dot rest with
      | Some t => Some t
      | None => if Ascii.eqb c "." then Some s else None
      end
  end.

(** The text after the last separator of [s]. *)
Fixpoint after_last_slash (s : string) : string :=
  match s with
  | EmptyString => EmptyString
  | String c rest =>
      if existsb (Ascii.eqb "/") (list_ascii_of_string rest)
      then after_last_slash rest
      else if Ascii.eqb c "/" then rest else s
  end.

(** [PurePosixPath(p).suffix] for a path that ends in a file name: the
    text from the last dot of the name on, unless that dot starts or ends
    the name. *)
Definition Path_suffix (p : string) : string :=
  match after_last_slash p with
  | EmptyString => EmptyString
  | String _ rest =>
      match from_last_dot rest with
      | Some (String d (String c t)) => String d (String c t)
      | _ => EmptyString
      end
  end.

Definition retry_statuses : list Z := [429; 502; 503; 504].

(** A [urlparse] that rejects every path, as it does a bad bracketed host. *)
Definition urlparse_rejecting (p : string) : result string :=
  Raise (OtherException "ValueError" "Invalid IPv6 URL").

(** A minimal client that raises for the status 401, as [urllib] does. *)
Definition unauthorized : result urllib_response :=
  Raise (OtherException "HTTPError" "HTTP Error 401: Unauthorized").

(** Tier 1 fails in the handshake, every later [session.get] answers 403. *)
Definition tls_then_403 (n : nat) : result Z :=
  match n with
  | O => Raise (OtherException "CurlError" "TLS handshake failed")
  | S _ => Ok 403
  end.

(** Every [session.get] answers the same status. *)
Definition always (status : Z) (n : nat) : result Z := Ok status.

(** An answer of the minimal client without a usable status. *)
Definition answer_without_status : result urllib_response :=
  Ok {| resp_status := StatusNone;
        resp_header_items :=
          [("Content-Type", "image/png"); ("Set-Cookie", "a=1");
           ("Set-Cookie", "b=2")];
        resp_body := [x89; x50; x4e; x47] |}.

Definition answer (status : Z) : result urllib_response :=
  Ok {| resp_status := StatusInt status;
        resp_header_items := [("Content-Type", "image/png")];
        resp_body := [] |}.

End Scenario.

(** ** Computations of the adapter *)

Section Adapter.

Set Default Proof Using "Type".

(** The outside world and the collaborators the module imports. *)
Variable World : Type.
Variable Session : Type.

(** The response object of [curl_cffi]; the source reads its
    [status_code] and hands the object itself to the caller. *)
Variable CurlResponse : Type.
Variable curl_status_code : CurlResponse -> Z.

(** [await session.get(url, **kwargs)] *)
Variable session_get :
  Session -> string -> get_kwargs -> World -> result CurlResponse * World.

(** [urllib.request.urlopen(Request(url, headers, method="GET"), timeout)]
    followed by the reads of [_do_get], run through [asyncio.to_thread]. *)
Variable urlopen :
  string -> dict string -> pyval -> World -> result urllib_response * World.

(** [await TokenService.record_fail(token, status, reason)] *)
Variable record_fail :
  string -> pyval -> string -> World -> result unit * World.

(** [get_config(key)]: the configured value, [None] when the key is absent. *)
Variable get_config : string -> pyval.

(** [build_headers(cookie_token, content_type, origin, referer)] *)
Variable build_headers :
  string -> option string -> string -> string -> dict string.

(** [urllib.parse.urlparse(s).path], which raises [ValueError] on some
    inputs, and [pathlib.Path(p).suffix]. *)
Variable urlparse_path : string -> result string.
Variable Path_suffix : string -> string.

(** What the constructor of [UpstreamException] leaves in the attribute
    [status_code]. *)
Variable upstream_status_code : pyval.

(** The parameters of the retry policy: the retryable statuses and the
    number of attempts allowed. *)
Variable retry_statuses : list Z.
Variable max_attempts : nat.

(** *** State, and computations that may raise *)

Record state : Type := mk_state {
  world : World;
  trace : list event
}.

Definition M (A : Type) : Type := state -> result A * state.

Definition ret {A} (a : A) : M A := fun s => (Ok a, s).

Definition raise {A} (e : exn) : M A := fun s => (Raise e, s).

Definition bind {A B} (m : M A) (k : A -> M B) : M B :=
  fun s =>
    match m s with
    | (Ok a, s') => k a s'
    | (Raise e, s') => (Raise e, s')
    end.

(** [try: m  except Exception as e: handler(e)] *)
Definition try_except {A} (m : M A) (handler : exn -> M A) : M A :=
  fun s =>
    match m s with
    | (Ok a, s') => (Ok a, s')
    | (Raise e, s') => handler e s'
    end.

Definition lift {A} (r : result A) : M A := fun s => (r, s).

Definition emit (ev : event) : M unit :=
  fun s => (Ok tt, {| world := world s; trace := trace s ++ [ev] |}).

(** A call to a collaborator: it is recorded, then it acts on the world. *)
Definition call {A} (ev : event) (f : World -> result A * World) : M A :=
  fun s =>
    let (r, w) := f (world s) in
    (r, {| world := w; trace := trace s ++ [ev] |}).

Notation "x <- m ;; k" := (bind m (fun x => k))
  (at level 61, m at next level, right associativity).
Notation "m ;;; k" := (bind m (fun _ => k))
  (at level 61, right associativity).

(** [UpstreamException(message=..., details=...)] *)
Definition new_UpstreamException (msg : string) (det : dict pyval) : exn :=
  Upstream {| message := msg; details := det;
              attr_status_code := upstream_status_code |}.

(** What [request] hands to its caller: the [curl_cffi] response of the
    first two tiers or the [_SimpleResponse] of the third. *)
Inductive response : Type :=
| CurlResp (r : CurlResponse)
| SimpleResp (r : _SimpleResponse).

Definition response_status (r : response) : Z :=
  match r with
  | CurlResp c => curl_status_code c
  | SimpleResp f => status_code f
  end.

(** *** [_urllib_get] *)

Definition _urllib_get (url : string) (hdrs : dict string) (timeout : pyval)
  : M _SimpleResponse :=
  resp <- call (EvUrlopen url hdrs timeout) (urlopen url hdrs timeout) ;;
  ret (adapt_response resp).

(** *** The closures of [request] *)

Section Closures.

(** The variables of [request] that the nested functions capture. *)
Variable session : Session.
Variable url : string.
Variable hdrs : dict string.
Variable timeout : pyval.
Variable browser : pyval.
Variable proxies : option (dict string).

(** Lines 114-123: the [kwargs] of one attempt. *)
Definition make_kwargs (use_impersonate use_proxy : bool) : get_kwargs :=
  {| kw_headers := hdrs;
     kw_timeout := timeout;
     kw_allow_redirects := true;
     kw_stream := true;
     kw_proxies :=
       if use_proxy && proxies_truthy proxies then proxies else None;
     kw_impersonate :=
       if use_impersonate && truthy browser then Some browser else None |}.

(** Lines 113-134 *)
Definition _single_get (use_impersonate use_proxy : bool) : M CurlResponse :=
  let kwargs := make_kwargs use_impersonate use_proxy in
  response <- call (EvGet url kwargs) (session_get session url kwargs) ;;
  if negb (curl_status_code response =? 200) then
    let msg := download_failed_message (str_of_int (curl_status_code response)) in
    emit (EvLog ERROR msg (Some "UpstreamException")) ;;;
    raise (new_UpstreamException msg
             [("status", PyInt (curl_status_code response))])
  else ret response.

Definition primary_failed_message (first_err : exn) : string :=
  ("AssetsDownloadReverse primary request failed, fallback direct: error="
     ++ str_exn first_err)%string.

Definition direct_failed_message (second_err : exn) : string :=
  ("AssetsDownloadReverse direct curl request failed, fallback urllib: error="
     ++ str_exn second_err)%string.

(** Lines 153-167: the third tier. *)
Definition _urllib_tier : M response :=
  fallback_resp <- _urllib_get url hdrs timeout ;;
  if negb (status_code fallback_resp =? 200) then
    let msg := download_failed_message (str_of_int (status_code fallback_resp)) in
    emit (EvLog ERROR msg (Some "UpstreamException")) ;;;
    raise (new_UpstreamException msg
             [("status", PyInt (status_code fallback_resp))])
  else ret (SimpleResp fallback_resp).

(** Lines 136-167 *)
Definition _do_request : M response :=
  try_except
    (r <- _single_get true true ;; ret (CurlResp r))
    (fun first_err =>
       emit (EvLog WARNING (primary_failed_message first_err) None) ;;;
       try_except
         (r <- _single_get false false ;; ret (CurlResp r))
         (fun second_err =>
            emit (EvLog WARNING (direct_failed_message second_err) None) ;;;
            _urllib_tier)).

(** The outcomes of the three transports when they are called in turn,
    starting from the world [w]: what each tier of the cascade meets. *)
Definition tier1_outcome (w : World) : result CurlResponse * World :=
  session_get session url (make_kwargs true true) w.

Definition tier2_outcome (w : World) : result CurlResponse * World :=
  session_get session url (make_kwargs false false) (snd (tier1_outcome w)).

Definition tier3_outcome (w : World) : result urllib_response * World :=
  urlopen url hdrs timeout (snd (tier2_outcome w)).

(** A [curl_cffi] tier succeeds when it returns a response of status 200. *)
Definition tier_ok (r : result CurlResponse) : bool :=
  match r with
  | Ok resp => curl_status_code resp =? 200
  | Raise _ => false
  end.

(** The events one pass of the cascade may add: the three transport calls
    with the arguments of the closure, and log lines. *)
Definition cascade_event (ev : event) : Prop :=
  match ev with
  | EvGet u kw =>
      u = url /\ (kw = make_kwargs true true \/ kw = make_kwargs false false)
  | EvUrlopen u h t => u = url /\ h = hdrs /\ t = timeout
  | EvLog _ _ _ => True
  | EvSleep => True
  | EvRecordFail _ _ _ => False
  end.

End Closures.

(** *** [retry_on_status] *)

(** Modelled from the spec: [retry_on_status] is declared in
    [app.services.reverse.utils.retry], outside the file at hand.  The
    spec's retry policy: on an UpstreamFailure whose status is in the
    configured retryable set, and while the attempt budget lasts, wait the
    back-off interval and run the whole function again; otherwise let the
    failure through unchanged. *)
Definition retryable (e : exn) : bool :=
  match e with
  | Upstream u =>
      match failure_status u with
      | PyInt st => existsb (Z.eqb st) retry_statuses
      | _ => false
      end
  | OtherException _ _ => false
  end.

(** Modelled from the spec: one attempt, and on a retryable failure with
    retries left the wait and the next attempt; the function is run again
    as a whole. *)
Fixpoint retry_loop {A} (retries_left : nat) (func : M A) : M A :=
  try_except func
    (fun e =>
       match retries_left with
       | S n => if retryable e then emit EvSleep ;;; retry_loop n func
                else raise e
       | O => raise e
       end).

(** Modelled from the spec: [retry_on_status(func)], with an attempt budget
    of [max_attempts] (the first attempt is always made). *)
Definition retry_on_status {A} (func : M A) : M A :=
  retry_loop (Nat.pred max_attempts) func.

(** *** [request] *)

(** Line 92:
    [_CONTENT_TYPES.get(Path(urllib.parse.urlparse(file_path).path).suffix.lower())] *)
Definition guess_content_type (file_path : string) : result (option string) :=
  match urlparse_path file_path with
  | Ok path => Ok (content_type_of_suffix (Path_suffix path))
  | Raise e => Raise e
  end.

(** Lines 80-169: the body of the [try]. *)
Definition request_body (session : Session) (token file_path : string)
  : M response :=
  let file_path := normalize_path file_path in
  let url := build_url file_path in
  base_proxy <- lift (stripped_config (get_config "proxy.base_proxy_url")) ;;
  asset_proxy <- lift (stripped_config (get_config "proxy.asset_proxy_url")) ;;
  let proxy_url := choose_proxy asset_proxy base_proxy in
  let proxies := make_proxies proxy_url in
  content_type <- lift (guess_content_type file_path) ;;
  let hdrs :=
    navigation_headers
      (build_headers token content_type
         "https://assets.grok.com" "https://grok.com/") in
  let timeout := get_config "asset.download_timeout" in
  let browser := get_config "proxy.browser" in
  retry_on_status (_do_request session url hdrs timeout browser proxies).

(** What [request] hands to the transports: the proxies of lines 86-89 and
    the headers of lines 92-107 (when a step before them raises, no
    transport is called at all). *)
Definition resolved_proxies : option (dict string) :=
  match stripped_config (get_config "proxy.base_proxy_url"),
        stripped_config (get_config "proxy.asset_proxy_url") with
  | Ok base_proxy, Ok asset_proxy =>
      make_proxies (choose_proxy asset_proxy base_proxy)
  | _, _ => None
  end.

Definition request_headers (token file_path : string) : dict string :=
  navigation_headers
    (build_headers token
       match guess_content_type (normalize_path file_path) with
       | Ok content_type => content_type
       | Raise _ => None
       end
       "https://assets.grok.com" "https://grok.com/").

(** A configuration value that is absent or a string: its text once
    stripped. *)
Definition config_text (v : pyval) : string :=
  match v with
  | PyStr s => strip s
  | _ => ""
  end.

Definition absent_or_str (v : pyval) : Prop :=
  v = PyNone \/ exists s, v = PyStr s.

(** The configuration values on which [(value or "").strip()] does not
    raise: the falsy ones ([None], [0], [""]), which read as absent, and the
    strings. *)
Definition falsy_or_str (v : pyval) : Prop :=
  truthy v = false \/ exists s, v = PyStr s.

Definition absent_or_blank (v : pyval) : Prop :=
  v = PyNone \/ exists s, v = PyStr s /\ strip s = "".

(** Lines 171-195: the [except Exception as e] clause. *)
Definition request_handler (token : string) (e : exn) : M response :=
  match e with
  | Upstream u =>
      let status := failure_status u in
      (if py_eqb status (PyInt 401) then
         try_except
           (call (EvRecordFail token status "assets_download_auth_failed")
                 (record_fail token status "assets_download_auth_failed"))
           (fun _ => ret tt)
       else ret tt) ;;;
      raise e
  | OtherException _ _ =>
      emit (EvLog ERROR (download_failed_message (str_exn e))
                  (Some (type_name_of e))) ;;;
      raise (new_UpstreamException
               (download_failed_message (str_exn e))
               [("status", PyInt 502); ("error", PyStr (str_exn e))])
  end.

(** [AssetsDownloadReverse.request] *)
Definition request (session : Session) (token file_path : string)
  : M response :=
  try_except (request_body session token file_path) (request_handler token).

(** The events a computation added to the trace. *)
Definition new_events (before after : state) : list event :=
  skipn (length (trace before)) (trace after).

(** A computation that only appends events, each of them satisfying [P]. *)
Definition only_emits {A} (P : event -> Prop) (m : M A) : Prop :=
  forall s, exists evs, trace (snd (m s)) = trace s ++ evs /\ Forall P evs.

(* ================================================================== *)
(** * Properties *)

(** ** Chunked streaming of the fallback body *)

Lemma range_up_unfold i stop step :
  range_up i stop step =
  if (0 <? step) && (i <? stop) then i :: range_up (i + step) stop step else [].
Proof.
  funelim (range_up i stop step);
    destruct (Z.ltb_spec 0 step); destruct (Z.ltb_spec i stop);
    simpl; try lia; reflexivity.
Qed.

Lemma range_down_unfold i stop step :
  range_down i stop step =
  if (step <? 0) && (stop <? i) then i :: range_down (i + step) stop step else [].
Proof.
  funelim (range_down i stop step);
    destruct (Z.ltb_spec step 0); destruct (Z.ltb_spec stop i);
    simpl; try lia; reflexivity.
Qed.

Section Chunks.

Variable A : Type.
Variable data : list A.
Variable C : Z.
Hypothesis C_pos : 0 < C.

Variable N : Z.
Hypothesis N_def : N = Z.of_nat (length data).

Set Default Proof Using "Type C_pos N_def".


Lemma chunks_from_unfold i :
  chunks_from data C i =
  if i <? N then chunk_at data C i :: chunks_from data C (i + C) else [].
Proof.
  unfold chunks_from. rewrite <- N_def. rewrite range_up_unfold.
  destruct (Z.ltb_spec 0 C); [|lia]. simpl.
  destruct (i <? N); reflexivity.
Qed.

Lemma chunk_inside i :
  0 <= i < N ->
  chunk_at data C i = firstn (Z.to_nat (Z.min N (i + C) - i)) (skipn (Z.to_nat i) data).
Proof.
  intros Hi. unfold chunk_at, slice, slice_bound. rewrite <- N_def.
  destruct (Z.ltb_spec i 0); [lia|].
  destruct (Z.ltb_spec (i + C) 0); [lia|].
  replace (Z.max 0 (Z.min N i)) with i by lia.
  replace (Z.max 0 (Z.min N (i + C))) with (Z.min N (i + C)) by lia.
  reflexivity.
Qed.

Lemma chunk_length i :
  0 <= i < N -> Z.of_nat (length (chunk_at data C i)) = Z.min C (N - i).
Proof.
  intros Hi. rewrite chunk_inside by assumption.
  rewrite length_firstn, length_skipn. lia.
Qed.

(** Induction on the distance to the end of the data, the measure along
    which [range] advances. *)
Lemma from_start_ind (P : Z -> Prop) :
  (forall i, N <= i -> P i) ->
  (forall i, 0 <= i < N -> P (i + C) -> P i) ->
  forall i, 0 <= i -> P i.
Proof.
  intros Hstop Hstep i Hi.
  remember (Z.to_nat (N - i)) as n eqn:En.
  revert i Hi En. induction n as [n IH] using lt_wf_ind. intros i Hi En.
  destruct (Z_lt_dec i N) as [Hlt|Hge].
  - apply Hstep; [lia|].
    apply (IH (Z.to_nat (N - (i + C)))); lia.
  - apply Hstop. lia.
Qed.

Lemma chunks_from_concat i :
  0 <= i -> concat (chunks_from data C i) = skipn (Z.to_nat i) data.
Proof.
  revert i. apply from_start_ind.
  - intros i Hi. rewrite chunks_from_unfold.
    destruct (Z.ltb_spec i N); [lia|]. simpl.
    symmetry. apply skipn_all2. lia.
  - intros i Hi IH. rewrite chunks_from_unfold.
    destruct (Z.ltb_spec i N); [|lia]. simpl. rewrite IH by lia.
    rewrite chunk_inside by assumption.
    destruct (Z_le_dec (i + C) N) as [Hin|Hout].
    + replace (Z.to_nat (i + C))
        with (Z.to_nat (Z.min N (i + C) - i) + Z.to_nat i)%nat by lia.
      rewrite <- skipn_skipn. apply firstn_skipn.
    + rewrite (skipn_all2 data (n := Z.to_nat (i + C))) by lia.
      rewrite app_nil_r. apply firstn_all2.
      rewrite length_skipn. lia.
Qed.

Lemma chunks_from_length i :
  0 <= i -> Z.of_nat (length (chunks_from data C i)) = Z.max 0 ((N - i + C - 1) / C).
Proof.
  revert i. apply from_start_ind.
  - intros i Hi. rewrite chunks_from_unfold.
    destruct (Z.ltb_spec i N); [lia|]. simpl.
    assert ((N - i + C - 1) / C <= 0); [|lia].
    apply Z.lt_succ_r, Z.div_lt_upper_bound; lia.
  - intros i Hi IH. rewrite chunks_from_unfold.
    destruct (Z.ltb_spec i N); [|lia].
    cbn [length]. rewrite Nat2Z.inj_succ, IH.
    replace (N - i + C - 1) with ((N - (i + C) + C - 1) + 1 * C) by lia.
    rewrite Z.div_add by lia.
    assert (0 <= (N - (i + C) + C - 1) / C) by (apply Z.div_pos; lia).
    lia.
Qed.

Lemma chunks_from_nil i : N <= i <-> chunks_from data C i = [].
Proof.
  rewrite chunks_from_unfold. destruct (Z.ltb_spec i N); split;
    intros; try lia; try reflexivity; discriminate.
Qed.

Lemma chunks_from_sizes i :
  0 <= i ->
  Forall (fun c => Z.of_nat (length c) = C) (removelast (chunks_from data C i)) /\
  (chunks_from data C i <> [] ->
   0 < Z.of_nat (length (last (chunks_from data C i) [])) <= C).
Proof.
  revert i. apply from_start_ind.
  - intros i Hi. apply chunks_from_nil in Hi. rewrite Hi.
    split; [constructor | congruence].
  - intros i Hi [IHall IHlast]. rewrite chunks_from_unfold.
    destruct (Z.ltb_spec i N); [|lia].
    pose proof (chunk_length i Hi) as Hlen.
    destruct (chunks_from data C (i + C)) as [|c rest] eqn:Erest.
    + apply chunks_from_nil in Erest. simpl. split; [constructor|].
      intros _. lia.
    + split.
      * change (removelast (chunk_at data C i :: c :: rest))
          with (chunk_at data C i :: removelast (c :: rest)).
        constructor; [|exact IHall].
        assert (i + C < N); [|lia].
        destruct (Z_lt_dec (i + C) N); [assumption|].
        assert (Hnil : chunks_from data C (i + C) = []) by (apply chunks_from_nil; lia).
        congruence.
      * intros _. change (last (chunk_at data C i :: c :: rest) [])
          with (last (c :: rest) []).
        apply IHlast. discriminate.
Qed.

Lemma chunks_from_nth (k : nat) : forall i,
  0 <= i ->
  nth_error (chunks_from data C i) k =
  if i + Z.of_nat k * C <? N
  then Some (chunk_at data C (i + Z.of_nat k * C))
  else None.
Proof.
  induction k as [|k IH]; intros i Hi; rewrite chunks_from_unfold.
  - rewrite Z.add_0_r. destruct (i <? N); reflexivity.
  - destruct (Z.ltb_spec i N).
    + cbn [nth_error]. rewrite IH by lia.
      replace (i + C + Z.of_nat k * C) with (i + Z.of_nat (S k) * C) by lia.
      reflexivity.
    + destruct (Z.ltb_spec (i + Z.of_nat (S k) * C) N); [nia | reflexivity].
Qed.

Lemma chunk_at_firstn i :
  0 <= i < N ->
  chunk_at data C i = firstn (Z.to_nat C) (skipn (Z.to_nat i) data).
Proof.
  intros Hi. rewrite chunk_inside by assumption.
  destruct (Z_le_dec (i + C) N).
  - f_equal. lia.
  - rewrite !firstn_all2; [reflexivity | |]; rewrite length_skipn; lia.
Qed.

End Chunks.

Set Default Proof Using "Type".

Lemma aiter_content_positive (self : _SimpleResponse) (C : Z) :
  0 < C -> aiter_content self C = Some (chunks_from (content self) C 0).
Proof.
  intros HC. unfold aiter_content, range.
  destruct (Z.eqb_spec C 0); [lia|].
  destruct (Z.ltb_spec 0 C); [reflexivity | lia].
Qed.

(** X1. A chunk size of zero makes the iteration raise, and a negative one
    makes it yield nothing at all, whatever the content. *)
Theorem aiter_content_degenerate_sizes (self : _SimpleResponse) (C : Z) :
  (C = 0 -> aiter_content self C = None) /\
  (C < 0 -> aiter_content self C = Some []).
Proof.
  split; intros HC; unfold aiter_content, range.
  - subst C. reflexivity.
  - destruct (Z.eqb_spec C 0); [lia|].
    destruct (Z.ltb_spec 0 C); [lia|].
    rewrite range_down_unfold.
    destruct (Z.ltb_spec (Z.of_nat (length (content self))) 0); [lia|].
    rewrite andb_false_r. reflexivity.
Qed.

(** X2. For a positive chunk size [C], the chunk of rank [k] is the slice of
    at most [C] bytes that starts at byte [k * C]; there is one exactly for
    the ranks whose start lies inside the content. *)
Theorem aiter_content_nth (self : _SimpleResponse) (C : Z) (k : nat) :
  0 < C ->
  exists chunks,
    aiter_content self C = Some chunks /\
    nth_error chunks k =
    if Z.of_nat k * C <? Z.of_nat (length (content self))
    then Some (firstn (Z.to_nat C) (skipn (k * Z.to_nat C) (content self)))
    else None.
Proof.
  intros HC. eexists. split; [apply aiter_content_positive; exact HC|].
  rewrite (chunks_from_nth _ (content self) C HC _ eq_refl k 0 (Z.le_refl 0)).
  rewrite Z.add_0_l.
  destruct (Z.ltb_spec (Z.of_nat k * C) (Z.of_nat (length (content self))));
    [|reflexivity].
  rewrite (chunk_at_firstn _ (content self) C HC _ eq_refl) by lia.
  do 3 f_equal. nia.
Qed.

(** C4. For a body of [N] bytes and a chunk size [C > 0], [aiter_content]
    yields [ceil(N / C)] chunks, each of [C] bytes except a possibly shorter,
    never empty, last one; their concatenation in order is the body; an
    empty body yields no chunk.  The default chunk size is 64 KiB. *)
Theorem aiter_content_chunks (self : _SimpleResponse) (C : Z) :
  0 < C ->
  exists chunks,
    aiter_content self C = Some chunks /\
    Z.of_nat (length chunks) = (Z.of_nat (length (content self)) + C - 1) / C /\
    concat chunks = content self /\
    Forall (fun c => Z.of_nat (length c) = C) (removelast chunks) /\
    (chunks <> [] -> 0 < Z.of_nat (length (last chunks [])) <= C) /\
    (length (content self) = 0%nat -> chunks = []) /\
    default_chunk_size = 65536.
Proof.
  intros HC. unfold aiter_content, range.
  destruct (Z.eqb_spec C 0); [lia|].
  destruct (Z.ltb_spec 0 C); [|lia].
  eexists. split; [reflexivity|].
  pose proof (chunks_from_length _ (content self) C HC _ eq_refl 0
                (Z.le_refl 0)) as Hlen.
  pose proof (chunks_from_concat _ (content self) C HC _ eq_refl 0
                (Z.le_refl 0)) as Hcat.
  pose proof (chunks_from_sizes _ (content self) C HC _ eq_refl 0
                (Z.le_refl 0)) as [Hall Hlast].
  fold (chunks_from (content self) C 0).
  repeat split.
  - rewrite Hlen. rewrite Z.sub_0_r.
    assert (0 <= (Z.of_nat (length (content self)) + C - 1) / C)
      by (apply Z.div_pos; lia).
    lia.
  - exact Hcat.
  - exact Hall.
  - apply Hlast; assumption.
  - apply Hlast; assumption.
  - intros H0.
    apply (chunks_from_nil _ (content self) C HC _ eq_refl 0). lia.
Qed.

(** ** Dictionaries and the headers of the fallback response *)

Section Dicts.

Variable V : Type.
Implicit Types (d : dict V) (k : string) (v : V).

Lemma dict_get_set d k v k' :
  dict_get (dict_set d k v) k' =
  if (k =? k')%string then Some v else dict_get d k'.
Proof.
  induction d as [|[k0 v0] d IH]; cbn [dict_set dict_get].
  - reflexivity.
  - destruct (String.eqb_spec k0 k) as [->|Hne]; cbn [dict_get].
    + destruct (k =? k')%string; reflexivity.
    + rewrite IH. destruct (String.eqb_spec k k') as [->|Hne'].
      * destruct (String.eqb_spec k0 k'); [contradiction | reflexivity].
      * reflexivity.
Qed.

Lemma in_keys_set d k v x :
  In x (keys (dict_set d k v)) <-> x = k \/ In x (keys d).
Proof.
  unfold keys. induction d as [|[k0 v0] d IH]; cbn [dict_set map In fst].
  - split; [intros [H|[]]; left; symmetry; exact H|].
    intros [H|[]]. left. symmetry. exact H.
  - destruct (String.eqb_spec k0 k) as [->|Hne]; cbn [map In fst].
    + split; [intros [H|H]; [left; symmetry|right; right]; exact H|].
      intros [H|[H|H]]; [left; symmetry| left |right]; exact H.
    + rewrite IH. split.
      * intros [H|[H|H]]; [right; left|left|right; right]; exact H.
      * intros [H|[H|H]]; [right; left|left|right; right]; exact H.
Qed.

Lemma nodup_keys_set d k v :
  NoDup (keys d) -> NoDup (keys (dict_set d k v)).
Proof.
  unfold keys. induction d as [|[k0 v0] d IH]; cbn [dict_set map fst]; intros H.
  - constructor; [intros [] | constructor].
  - apply NoDup_cons_iff in H. destruct H as [Hnotin Hnd].
    destruct (String.eqb_spec k0 k) as [->|Hne]; cbn [map fst].
    + constructor; assumption.
    + constructor; [|apply IH; exact Hnd].
      intros Hin. apply (in_keys_set d k v k0) in Hin.
      destruct Hin as [Heq|Hin]; [exact (Hne Heq) | exact (Hnotin Hin)].
Qed.

Lemma dict_get_none d k : ~ In k (keys d) -> dict_get d k = None.
Proof.
  unfold keys. induction d as [|[k0 v0] d IH]; cbn [dict_get map In fst];
    [reflexivity|].
  intros H. destruct (String.eqb_spec k0 k) as [Heq|Hne];
    [exfalso; apply H; left; exact Heq|].
  apply IH. intros Hin. apply H. right. exact Hin.
Qed.

(** Filling a dictionary from a list of pairs, the key going through [g]. *)
Variable g : string -> string.


Lemma fill_keys l : forall d x,
  In x (keys (fill g d l)) -> In x (keys d) \/ In x (map (fun kv => g (fst kv)) l).
Proof.
  induction l as [|kv l IH]; intros d x H; cbn in *; [left; exact H|].
  apply IH in H. destruct H as [H|H]; [|right; right; exact H].
  apply in_keys_set in H. destruct H as [->|H]; [right; left|left]; auto.
Qed.


Lemma fill_keys_in l : forall d x,
  In x (keys d) \/ In x (map (fun kv => g (fst kv)) l) ->
  In x (keys (fill g d l)).
Proof.
  induction l as [|kv l IH]; intros d x H; cbn [fill fold_left].
  - destruct H as [H|[]]. exact H.
  - apply IH. destruct H as [H|[H|H]].
    + left. apply in_keys_set. right. exact H.
    + left. apply in_keys_set. left. symmetry. exact H.
    + right. exact H.
Qed.

End Dicts.



Section LastValue.

Variable V : Type.
Implicit Types (l : list (string * V)) (p q : string -> bool).




End LastValue.


Lemma dict_of_items_keys {V} (items : list (string * V)) x :
  In x (keys (dict_of_items items)) -> In x (map fst items).
Proof.
  intros H. apply fill_keys in H. destruct H as [[]|H]. exact H.
Qed.






(** X6. No header is lost and none is made up: the names of the adapted
    headers are exactly the names received, put in lower case. *)
Theorem adapted_header_names (raw : urllib_response) (k : string) :
  In k (keys (headers (adapt_response raw))) <->
  exists name, In name (map fst (resp_header_items raw)) /\ lower name = k.
Proof.
  cbn [adapt_response headers]. unfold lowered_headers. split.
  - intros H. apply fill_keys in H. destruct H as [[]|H].
    apply in_map_iff in H. destruct H as [kv [Hk Hin]].
    exists (fst kv). split; [|exact Hk].
    apply dict_of_items_keys. apply (in_map fst) in Hin. exact Hin.
  - intros [name [Hin Hk]]. apply fill_keys_in. right.
    assert (HD : In name (keys (dict_of_items (resp_header_items raw)))).
    { apply fill_keys_in. right. unfold keys in *.
      rewrite in_map_iff in *. exact Hin. }
    unfold keys in HD. apply in_map_iff in HD. destruct HD as [kv [Hkv HinD]].
    apply in_map_iff. exists kv. split; [|exact HinD].
    rewrite Hkv. exact Hk.
Qed.

(** X7. The six navigation headers are set to their fixed values whatever
    the header builder returned under those names; every other header is
    kept as it was; and names stay unique. *)
Theorem navigation_headers_override (h : dict string) :
  (forall k v, In (k, v) NAVIGATION_HEADERS ->
     dict_get (navigation_headers h) k = Some v) /\
  (forall k, ~ In k (map fst NAVIGATION_HEADERS) ->
     dict_get (navigation_headers h) k = dict_get h k) /\
  (NoDup (keys h) -> NoDup (keys (navigation_headers h))).
Proof.
  split; [|split].
  - intros k v Hin. unfold navigation_headers. rewrite !dict_get_set.
    cbn [NAVIGATION_HEADERS In] in Hin.
    repeat (destruct Hin as [[= <- <-]|Hin]; [reflexivity|]).
    contradiction.
  - intros k Hnot. unfold navigation_headers. rewrite !dict_get_set.
    cbn [NAVIGATION_HEADERS map fst In] in Hnot.
    repeat match goal with
      | |- context [(?a =? k)%string] =>
          destruct (String.eqb_spec a k) as [Heq|_];
          [exfalso; apply Hnot; rewrite <- Heq; clear; cbn; auto 10|]
      end.
    reflexivity.
  - intros H. unfold navigation_headers. repeat apply nodup_keys_set. exact H.
Qed.

(** ** The tiered cascade *)

Lemma new_events_app (s s' : state) (evs : list event) :
  trace s' = trace s ++ evs -> new_events s s' = evs.
Proof.
  intros H. unfold new_events. rewrite H.
  rewrite skipn_app, skipn_all, Nat.sub_diag. reflexivity.
Qed.

Section CascadeProperties.

Variable session : Session.
Variable url : string.
Variable hdrs : dict string.
Variable timeout browser : pyval.
Variable proxies : option (dict string).

Local Notation "'cascade'" :=
  (_do_request session url hdrs timeout browser proxies).
Local Notation "'tier1'" := (make_kwargs hdrs timeout browser proxies true true).
Local Notation "'tier2'" := (make_kwargs hdrs timeout browser proxies false false).
Local Notation "'outcome1'" :=
  (tier1_outcome session url hdrs timeout browser proxies).
Local Notation "'outcome2'" :=
  (tier2_outcome session url hdrs timeout browser proxies).
Local Notation "'outcome3'" :=
  (tier3_outcome session url hdrs timeout browser proxies).

Ltac run_cascade :=
  unfold _do_request, _urllib_tier, _urllib_get, _single_get, try_except,
    bind, call, emit, raise, ret, adapt_response;
  cbn [world trace fst snd status_code].

Ltac split_outcomes :=
  unfold tier3_outcome, tier2_outcome, tier1_outcome, tier_ok in *;
  repeat match goal with
    | H : (_, _) = (_, _) |- _ => inversion H; subst; clear H
    | |- context [session_get ?a ?b ?c ?d] =>
        let r := fresh "r" in let w := fresh "w" in let E := fresh "E" in
        destruct (session_get a b c d) as [r w] eqn:E;
        cbn [fst snd world trace status_code] in *; destruct r;
        cbn [fst snd world trace status_code] in *
    | |- context [urlopen ?a ?b ?c ?d] =>
        let r := fresh "r" in let w := fresh "w" in let E := fresh "E" in
        destruct (urlopen a b c d) as [r w] eqn:E;
        cbn [fst snd world trace status_code] in *; destruct r;
        cbn [fst snd world trace status_code] in *
    | |- context [curl_status_code ?x =? 200] =>
        destruct (Z.eqb_spec (curl_status_code x) 200);
        cbn [negb fst snd world trace status_code] in *
    | |- context [adapted_status ?x =? 200] =>
        destruct (Z.eqb_spec (adapted_status x) 200);
        cbn [negb fst snd world trace status_code] in *
    end.

Ltac list_events :=
  repeat rewrite <- app_assoc; cbn [app];
  erewrite new_events_app by reflexivity;
  cbn [filter is_transport_call].

(** C1. The cascade calls Tier 1 first, with impersonation and proxy
    enabled; when Tier 1 raises or answers a status other than 200 it calls
    Tier 2 with both disabled; when Tier 2 fails in the same way it calls
    Tier 3, the [urllib] client; and a status other than 200 from Tier 3
    ends the cascade with an [UpstreamException] whose details are
    [{"status": <observed>}]. *)
Theorem cascade_escalation (s : state) :
  let calls := filter is_transport_call (new_events s (snd (cascade s))) in
  let t1 := fst (outcome1 (world s)) in
  let t2 := fst (outcome2 (world s)) in
  let t3 := fst (outcome3 (world s)) in
  (exists rest, calls = EvGet url tier1 :: rest) /\
  kw_impersonate tier1 = (if truthy browser then Some browser else None) /\
  kw_proxies tier1 = (if proxies_truthy proxies then proxies else None) /\
  (tier_ok t1 = false ->
   exists rest, calls = EvGet url tier1 :: EvGet url tier2 :: rest) /\
  kw_impersonate tier2 = None /\
  kw_proxies tier2 = None /\
  (tier_ok t1 = false -> tier_ok t2 = false ->
   calls = [EvGet url tier1; EvGet url tier2; EvUrlopen url hdrs timeout]) /\
  (tier_ok t1 = false -> tier_ok t2 = false ->
   forall raw, t3 = Ok raw ->
   adapted_status (resp_status raw) <> 200 ->
   fst (cascade s) =
     Raise (new_UpstreamException
              (download_failed_message
                 (str_of_int (adapted_status (resp_status raw))))
              [("status", PyInt (adapted_status (resp_status raw)))])).
Proof.
  cbv zeta. repeat split; try reflexivity.
  - run_cascade. split_outcomes; list_events; eexists; reflexivity.
  - run_cascade. split_outcomes; intros Hf; try discriminate Hf;
      list_events; eexists; reflexivity.
  - run_cascade. split_outcomes; intros Hf1 Hf2;
      try discriminate Hf1; try discriminate Hf2;
      list_events; reflexivity.
  - run_cascade.
    split_outcomes; intros Hf1 Hf2 raw Hraw Hst;
      try discriminate Hf1; try discriminate Hf2; try discriminate Hraw;
      injection Hraw as <-; try contradiction; reflexivity.
Qed.

(** C2. At every tier success is a response of status 200 and nothing
    else: that response is returned as it is and no later tier is called,
    while any other status is the failure of the tier. *)
Theorem success_is_status_200 (s : state) :
  let calls := filter is_transport_call (new_events s (snd (cascade s))) in
  let t1 := fst (outcome1 (world s)) in
  let t2 := fst (outcome2 (world s)) in
  let t3 := fst (outcome3 (world s)) in
  (forall imp prox resp w,
     session_get session url
       (make_kwargs hdrs timeout browser proxies imp prox) (world s)
     = (Ok resp, w) ->
     fst (_single_get session url hdrs timeout browser proxies imp prox s) =
       if curl_status_code resp =? 200 then Ok resp
       else Raise (new_UpstreamException
                     (download_failed_message
                        (str_of_int (curl_status_code resp)))
                     [("status", PyInt (curl_status_code resp))])) /\
  (forall resp, t1 = Ok resp -> curl_status_code resp = 200 ->
     fst (cascade s) = Ok (CurlResp resp) /\
     calls = [EvGet url tier1]) /\
  (tier_ok t1 = false ->
   forall resp, t2 = Ok resp -> curl_status_code resp = 200 ->
     fst (cascade s) = Ok (CurlResp resp) /\
     calls = [EvGet url tier1; EvGet url tier2]) /\
  (tier_ok t1 = false -> tier_ok t2 = false ->
   forall raw, t3 = Ok raw -> adapted_status (resp_status raw) = 200 ->
     fst (cascade s) = Ok (SimpleResp (adapt_response raw)) /\
     calls = [EvGet url tier1; EvGet url tier2; EvUrlopen url hdrs timeout]) /\
  (forall r, fst (cascade s) = Ok r -> response_status r = 200).
Proof.
  cbv zeta. split; [|split; [|split; [|split]]].
  - intros imp prox resp w E. run_cascade. rewrite E.
    destruct (Z.eqb_spec (curl_status_code resp) 200); reflexivity.
  - run_cascade. split_outcomes; intros resp Hr Hst;
      try discriminate Hr; injection Hr as <-; try contradiction.
    split; [reflexivity | list_events; reflexivity].
  - run_cascade. split_outcomes; intros Hf resp Hr Hst;
      try discriminate Hf; try discriminate Hr; injection Hr as <-;
      try contradiction;
      (split; [reflexivity | list_events; reflexivity]).
  - run_cascade. split_outcomes; intros Hf1 Hf2 raw Hr Hst;
      try discriminate Hf1; try discriminate Hf2; try discriminate Hr;
      injection Hr as <-; try contradiction;
      (split; [reflexivity | list_events; reflexivity]).
  - run_cascade. split_outcomes; intros r Hr; try discriminate Hr;
      injection Hr as <-; cbn [response_status status_code]; assumption.
Qed.

Lemma cascade_only_emits :
  only_emits (cascade_event url hdrs timeout browser proxies) cascade.
Proof.
  intros s. run_cascade.
  split_outcomes; repeat rewrite <- app_assoc; cbn [app];
    eexists; (split; [reflexivity|]);
    repeat (apply Forall_cons || apply Forall_nil); cbn; auto.
Qed.

Lemma cascade_first_call s :
  exists rest, trace (snd (cascade s)) = trace s ++ EvGet url tier1 :: rest.
Proof.
  run_cascade.
  split_outcomes; repeat rewrite <- app_assoc; cbn [app];
    eexists; reflexivity.
Qed.


Lemma cascade_ok_is_200 (s : state) r :
  fst (cascade s) = Ok r -> response_status r = 200.
Proof.
  run_cascade. split_outcomes; intros Hr; try discriminate Hr;
    injection Hr as <-; cbn [response_status status_code]; assumption.
Qed.

Lemma cascade_tier3_raises (s : state) e :
  tier_ok (fst (outcome1 (world s))) = false ->
  tier_ok (fst (outcome2 (world s))) = false ->
  fst (outcome3 (world s)) = Raise e ->
  fst (cascade s) = Raise e.
Proof.
  run_cascade. split_outcomes; intros Hf1 Hf2 Hr;
    try discriminate Hf1; try discriminate Hf2; try discriminate Hr;
    injection Hr as <-; reflexivity.
Qed.

(** X3. One pass of the cascade logs one warning for each escalation: none
    when Tier 1 succeeds, one when Tier 2 is reached, two when Tier 3 is. *)
Theorem one_warning_per_escalation (s : state) :
  S (length (filter is_warning_log (new_events s (snd (cascade s))))) =
  length (filter is_transport_call (new_events s (snd (cascade s)))).
Proof.
  run_cascade.
  split_outcomes; repeat rewrite <- app_assoc; cbn [app];
    erewrite new_events_app by reflexivity; reflexivity.
Qed.

(** X4. When one pass of the cascade fails, all three tiers have been called
    and the failure is that of Tier 3: the exception [urlopen] raised, or
    the [UpstreamException] for the status Tier 3 answered.  What Tiers 1
    and 2 raised or answered is logged and lost. *)
Theorem cascade_failure_is_tier3 (s : state) (e : exn) :
  fst (cascade s) = Raise e ->
  tier_ok (fst (outcome1 (world s))) = false /\
  tier_ok (fst (outcome2 (world s))) = false /\
  filter is_transport_call (new_events s (snd (cascade s))) =
    [EvGet url tier1; EvGet url tier2; EvUrlopen url hdrs timeout] /\
  (fst (outcome3 (world s)) = Raise e \/
   exists raw,
     fst (outcome3 (world s)) = Ok raw /\
     adapted_status (resp_status raw) <> 200 /\
     e = new_UpstreamException
           (download_failed_message
              (str_of_int (adapted_status (resp_status raw))))
           [("status", PyInt (adapted_status (resp_status raw)))]).
Proof.
  run_cascade.
  split_outcomes; intros He; try discriminate He; injection He as <-;
    (split; [reflexivity|]); (split; [reflexivity|]);
    (split; [list_events; reflexivity|]);
    solve [ left; reflexivity
          | right; eexists; split; [reflexivity|]; split;
            [assumption | reflexivity] ].
Qed.

(** X5. A [_SimpleResponse] returned by the cascade is the adaptation of what
    Tier 3 read, and streaming it with a positive chunk size gives back the
    bytes of the body that was read, in order. *)
Theorem fallback_streams_body_read (s : state) (r : _SimpleResponse) (C : Z) :
  fst (cascade s) = Ok (SimpleResp r) ->
  0 < C ->
  exists raw chunks,
    fst (outcome3 (world s)) = Ok raw /\
    r = adapt_response raw /\
    status_code r = 200 /\
    aiter_content r C = Some chunks /\
    concat chunks = resp_body raw.
Proof.
  intros Hr HC.
  assert (Hraw : exists raw,
            fst (outcome3 (world s)) = Ok raw /\ r = adapt_response raw /\
            status_code r = 200).
  { revert Hr. run_cascade.
    split_outcomes; intros Hr; try discriminate Hr; injection Hr as <-;
      (eexists; split; [reflexivity | split; [reflexivity | assumption]]). }
  destruct Hraw as [raw [H3 [-> H200]]].
  exists raw. eexists. split; [exact H3|]. split; [reflexivity|].
  split; [exact H200|].
  split; [apply aiter_content_positive; exact HC|].
  apply (chunks_from_concat _ (resp_body raw) C HC _ eq_refl 0 (Z.le_refl 0)).
Qed.

End CascadeProperties.

(** ** Traces of composed computations *)

Section TraceLemmas.

Variable P : event -> Prop.

Lemma only_emits_ret {A} (a : A) : only_emits P (ret a).
Proof. intros s. exists []. rewrite app_nil_r. split; [reflexivity | constructor]. Qed.

Lemma only_emits_raise {A} (e : exn) : only_emits P (@raise A e).
Proof. intros s. exists []. rewrite app_nil_r. split; [reflexivity | constructor]. Qed.

Lemma only_emits_lift {A} (r : result A) : only_emits P (lift r).
Proof. intros s. exists []. rewrite app_nil_r. split; [reflexivity | constructor]. Qed.

Lemma only_emits_emit (ev : event) : P ev -> only_emits P (emit ev).
Proof. intros H s. exists [ev]. split; [reflexivity | repeat constructor; exact H]. Qed.

Lemma only_emits_call {A} ev (f : World -> result A * World) :
  P ev -> only_emits P (call ev f).
Proof.
  intros H s. exists [ev]. unfold call. destruct (f (world s)).
  split; [reflexivity | repeat constructor; exact H].
Qed.

Lemma only_emits_bind {A B} (m : M A) (k : A -> M B) :
  only_emits P m -> (forall a, only_emits P (k a)) -> only_emits P (bind m k).
Proof.
  intros Hm Hk s. unfold bind. destruct (Hm s) as [evs [Et Hevs]].
  destruct (m s) as [[a|e] s1]; cbn [snd] in *.
  - destruct (Hk a s1) as [evs' [Et' Hevs']].
    exists (evs ++ evs'). rewrite Et', Et, app_assoc.
    split; [reflexivity | apply Forall_app; split; assumption].
  - exists evs. split; assumption.
Qed.

Lemma only_emits_try_except {A} (m : M A) (h : exn -> M A) :
  only_emits P m -> (forall e, only_emits P (h e)) ->
  only_emits P (try_except m h).
Proof.
  intros Hm Hh s. unfold try_except. destruct (Hm s) as [evs [Et Hevs]].
  destruct (m s) as [[a|e] s1]; cbn [snd] in *.
  - exists evs. split; assumption.
  - destruct (Hh e s1) as [evs' [Et' Hevs']].
    exists (evs ++ evs'). rewrite Et', Et, app_assoc.
    split; [reflexivity | apply Forall_app; split; assumption].
Qed.

Lemma only_emits_retry_loop {A} (n : nat) (func : M A) :
  P EvSleep -> only_emits P func -> only_emits P (retry_loop n func).
Proof.
  intros Hsleep Hf. induction n as [|n IH]; cbn [retry_loop];
    apply only_emits_try_except; try assumption; intros e.
  - apply only_emits_raise.
  - destruct (retryable e); [|apply only_emits_raise].
    apply only_emits_bind; [apply only_emits_emit; assumption|].
    intros _. exact IH.
Qed.

End TraceLemmas.

Lemma only_emits_weaken {A} (P Q : event -> Prop) (m : M A) :
  (forall ev, P ev -> Q ev) -> only_emits P m -> only_emits Q m.
Proof.
  intros HPQ Hm s. destruct (Hm s) as [evs [Et Hevs]].
  exists evs. split; [assumption|].
  eapply Forall_impl; [|exact Hevs]. exact HPQ.
Qed.

(** The body of [request] adds nothing to the trace but passes of the
    cascade over its own url, headers, timeout, profile and proxies, and
    the waits between them. *)
Lemma request_body_only_emits session token file_path :
  only_emits
    (cascade_event (build_url (normalize_path file_path))
       (request_headers token file_path)
       (get_config "asset.download_timeout")
       (get_config "proxy.browser")
       resolved_proxies)
    (request_body session token file_path).
Proof.
  unfold request_body, resolved_proxies, request_headers.
  destruct (stripped_config (get_config "proxy.base_proxy_url"))
    as [base_proxy|e1];
    [|intros s; exists []; rewrite app_nil_r; split; [reflexivity|constructor]].
  destruct (stripped_config (get_config "proxy.asset_proxy_url"))
    as [asset_proxy|e2];
    [|intros s; exists []; rewrite app_nil_r; split; [reflexivity|constructor]].
  destruct (guess_content_type (normalize_path file_path)) as [ct|e3];
    [|intros s; exists []; rewrite app_nil_r; split; [reflexivity|constructor]].
  intros s. unfold bind at 1 2 3. unfold lift. 
  apply only_emits_retry_loop; [exact I|].
  apply cascade_only_emits.
Qed.

(** ** The minimal client *)


(** ** The content type hint *)

(** C10. The hint depends on the suffix up to letter case only: a suffix
    that is a key of the table once put in lower case gets the hint of that
    key, two paths whose suffixes differ in letter case only get the same
    hint, and a suffix that is no key of the table once put in lower case
    gets no hint.  The same holds of the guess made for a path, whose suffix
    is that of the path [urlparse] gives: the six known extensions, in any
    letter case, get their MIME type, every other suffix gets [None], and
    the headers of the request are built with that guess. *)
Theorem content_type_ignores_case :
  (forall s1 s2, lower s1 = lower s2 ->
     content_type_of_suffix s1 = content_type_of_suffix s2) /\
  (forall suffix k v, In (k, v) _CONTENT_TYPES -> lower suffix = lower k ->
     content_type_of_suffix suffix = Some v) /\
  (forall suffix, ~ In (lower suffix) (keys _CONTENT_TYPES) ->
     content_type_of_suffix suffix = None) /\
  (forall p1 p2 path1 path2,
     urlparse_path p1 = Ok path1 -> urlparse_path p2 = Ok path2 ->
     lower (Path_suffix path1) = lower (Path_suffix path2) ->
     guess_content_type p1 = guess_content_type p2) /\
  (forall p path ext mime,
     urlparse_path p = Ok path ->
     In (ext, mime)
        [ (".jpg", "image/jpeg"); (".jpeg", "image/jpeg");
          (".png", "image/png"); (".webp", "image/webp");
          (".mp4", "video/mp4"); (".webm", "video/webm") ] ->
     lower (Path_suffix path) = ext ->
     guess_content_type p = Ok (Some mime)) /\
  (forall p path,
     urlparse_path p = Ok path ->
     ~ In (lower (Path_suffix path))
          [".jpg"; ".jpeg"; ".png"; ".webp"; ".mp4"; ".webm"] ->
     guess_content_type p = Ok None) /\
  (forall p e, urlparse_path p = Raise e -> guess_content_type p = Raise e) /\
  (forall token file_path ct,
     guess_content_type (normalize_path file_path) = Ok ct ->
     request_headers token file_path =
     navigation_headers
       (build_headers token ct "https://assets.grok.com" "https://grok.com/")).
Proof.
  split; [|split; [|split; [|split; [|split; [|split; [|split]]]]]].
  - intros s1 s2 H. unfold content_type_of_suffix. rewrite H. reflexivity.
  - intros suffix k v Hin Hlow. unfold content_type_of_suffix. rewrite Hlow.
    cbn [_CONTENT_TYPES In] in Hin.
    repeat (destruct Hin as [[= <- <-]|Hin]; [reflexivity|]).
    contradiction.
  - intros suffix Hnot. apply dict_get_none. exact Hnot.
  - intros p1 p2 path1 path2 H1 H2 Hlow. unfold guess_content_type.
    rewrite H1, H2. unfold content_type_of_suffix. rewrite Hlow. reflexivity.
  - intros p path ext mime Hp Hin Hlow. unfold guess_content_type.
    rewrite Hp. unfold content_type_of_suffix. rewrite Hlow.
    cbn [In] in Hin.
    repeat (destruct Hin as [[= <- <-]|Hin]; [reflexivity|]).
    contradiction.
  - intros p path Hp Hnot. unfold guess_content_type. rewrite Hp.
    f_equal. apply dict_get_none. exact Hnot.
  - intros p e Hp. unfold guess_content_type. rewrite Hp. reflexivity.
  - intros token file_path ct Hct. unfold request_headers. rewrite Hct.
    reflexivity.
Qed.

(** ** Error classification and credential feedback *)

Lemma cascade_event_not_record_fail url hdrs timeout browser proxies evs :
  Forall (cascade_event url hdrs timeout browser proxies) evs ->
  filter is_record_fail evs = [].
Proof.
  induction 1 as [|ev evs Hev _ IH]; [reflexivity|].
  destruct ev; cbn in *; try assumption. contradiction.
Qed.

(** C3. When [request] ends in an [UpstreamException], [record_fail] has been
    called once, with the token, the status and the fixed reason, exactly
    when the status of that failure is 401, and not at all otherwise; an
    exception from that call is dropped; the [UpstreamException] the body
    raised reaches the caller as it was. *)
Theorem record_fail_iff_401 session token file_path (s : state) :
  (forall u,
     fst (request_body session token file_path s) = Raise (Upstream u) ->
     fst (request session token file_path s) = Raise (Upstream u)) /\
  (forall u,
     fst (request session token file_path s) = Raise (Upstream u) ->
     filter is_record_fail
       (new_events s (snd (request session token file_path s))) =
     if py_eqb (failure_status u) (PyInt 401)
     then [EvRecordFail token (failure_status u) "assets_download_auth_failed"]
     else []).
Proof.
  unfold request, try_except.
  destruct (request_body_only_emits session token file_path s)
    as [evs [Et Hevs]].
  apply cascade_event_not_record_fail in Hevs.
  destruct (request_body session token file_path s) as [[r|[u0|ty text]] s1];
    cbn [fst snd] in *; split; intros u Hu; try discriminate Hu.
  - injection Hu as <-.
    unfold request_handler, bind, try_except, call, raise, ret.
    destruct (py_eqb (failure_status u0) (PyInt 401)); [|reflexivity].
    destruct (record_fail _ _ _ _) as [[[]|e] w]; reflexivity.
  - revert Hu. unfold request_handler, bind, try_except, call, raise, ret.
    destruct (py_eqb (failure_status u0) (PyInt 401)) eqn:E401.
    + destruct (record_fail _ _ _ _) as [[[]|e] w]; cbn [fst snd trace];
        intros [= <-]; rewrite E401;
        erewrite new_events_app by (rewrite Et, <- app_assoc; reflexivity);
        rewrite filter_app, Hevs; reflexivity.
    + cbn [fst snd]. intros [= <-]. rewrite E401.
      erewrite new_events_app by exact Et. exact Hevs.
  - revert Hu. unfold request_handler, bind, emit, raise.
    cbn [fst snd trace str_exn type_name_of]. intros [= <-].
    change (py_eqb _ (PyInt 401)) with false. cbv iota.
    erewrite new_events_app by (rewrite Et, <- app_assoc; reflexivity).
    rewrite filter_app, Hevs. reflexivity.
Qed.

(** C5. An exception leaving the body of [request] that is not an
    [UpstreamException] is logged as an error and replaced by a new
    [UpstreamException] whose details hold the status 502 and the text of the
    cause, and whose message is ["AssetsDownloadReverse: Download failed, "]
    followed by that text; [request] never raises anything but an
    [UpstreamException]. *)
Theorem other_exceptions_wrapped_502 session token file_path (s : state) :
  (forall ty text,
     fst (request_body session token file_path s)
     = Raise (OtherException ty text) ->
     fst (request session token file_path s) =
       Raise (new_UpstreamException
                ("AssetsDownloadReverse: Download failed, " ++ text)%string
                [("status", PyInt 502); ("error", PyStr text)]) /\
     trace (snd (request session token file_path s)) =
       trace (snd (request_body session token file_path s))
         ++ [EvLog ERROR
               ("AssetsDownloadReverse: Download failed, " ++ text)%string
               (Some ty)]) /\
  (forall ty text,
     fst (request session token file_path s) <> Raise (OtherException ty text)).
Proof.
  unfold request, try_except.
  destruct (request_body session token file_path s) as [[r|[u0|ty0 text0]] s1];
    cbn [fst snd]; split; intros ty text; try discriminate.
  - unfold request_handler, bind, try_except, call, raise, ret.
    destruct (py_eqb (failure_status u0) (PyInt 401));
      [destruct (record_fail _ _ _ _) as [[[]|e] w]|]; discriminate.
  - intros [= <- <-]. split; reflexivity.
Qed.

(** ** Configuration, proxies and the request target *)

Lemma stripped_config_text (v : pyval) :
  absent_or_str v -> stripped_config v = Ok (config_text v).
Proof.
  intros [->|[t ->]]; [reflexivity|].
  unfold stripped_config, py_or, truthy.
  destruct (String.eqb_spec t ""); [subst|]; reflexivity.
Qed.

Lemma stripped_config_falsy_or_str (v : pyval) :
  falsy_or_str v -> stripped_config v = Ok (config_text v).
Proof.
  intros [Hfalsy|[t ->]].
  - unfold stripped_config, py_or. rewrite Hfalsy.
    destruct v as [|z|t]; cbn [config_text py_strip]; try reflexivity.
    cbn [truthy] in Hfalsy. apply negb_false_iff, String.eqb_eq in Hfalsy.
    rewrite Hfalsy. reflexivity.
  - unfold stripped_config, py_or, truthy.
    destruct (String.eqb_spec t "") as [Ht|Ht]; [rewrite Ht|]; reflexivity.
Qed.

Lemma request_handler_appends token e :
  only_emits (fun _ => True) (request_handler token e).
Proof.
  destruct e as [u|ty text]; cbn [request_handler].
  - apply only_emits_bind; [|intros _; apply only_emits_raise].
    destruct (py_eqb _ _); [|apply only_emits_ret].
    apply only_emits_try_except;
      [apply only_emits_call; exact I | intros _; apply only_emits_ret].
  - apply only_emits_bind; [apply only_emits_emit; exact I|].
    intros _. apply only_emits_raise.
Qed.

Lemma retry_loop_appends {A} (n : nat) (func : M A) :
  only_emits (fun _ => True) func ->
  only_emits (fun _ => True) (retry_loop n func).
Proof. apply only_emits_retry_loop. exact I. Qed.

Lemma retry_loop_first_call session url hdrs timeout browser proxies n s :
  exists rest,
    trace (snd (retry_loop n
                  (_do_request session url hdrs timeout browser proxies) s)) =
    trace s ++ EvGet url (make_kwargs hdrs timeout browser proxies true true)
            :: rest.
Proof.
  destruct (cascade_first_call session url hdrs timeout browser proxies s)
    as [rest Hrest].
  assert (Happ : only_emits (fun _ => True)
                   (_do_request session url hdrs timeout browser proxies)).
  { eapply only_emits_weaken; [|apply cascade_only_emits]. intros; exact I. }
  destruct n as [|n]; cbn [retry_loop]; unfold try_except;
    destruct (_do_request _ _ _ _ _ _ s) as [[r|e] s1]; cbn [snd] in *.
  - exists rest. exact Hrest.
  - exists rest. exact Hrest.
  - exists rest. exact Hrest.
  - destruct (retryable e); [|exists rest; exact Hrest].
    unfold bind, emit.
    destruct (retry_loop_appends n _ Happ
                {| world := world s1; trace := trace s1 ++ [EvSleep] |})
      as [evs [Et _]].
    exists (rest ++ EvSleep :: evs). rewrite Et. cbn [trace].
    rewrite Hrest. repeat rewrite <- app_assoc. reflexivity.
Qed.

(** Once the proxies and the content type are worked out, the first thing
    [request] does to the outside is the Tier 1 call. *)
Lemma request_first_call session token file_path s :
  falsy_or_str (get_config "proxy.base_proxy_url") ->
  falsy_or_str (get_config "proxy.asset_proxy_url") ->
  (exists ct, guess_content_type (normalize_path file_path) = Ok ct) ->
  exists rest,
    new_events s (snd (request session token file_path s)) =
    EvGet (build_url (normalize_path file_path))
      (make_kwargs (request_headers token file_path)
         (get_config "asset.download_timeout") (get_config "proxy.browser")
         resolved_proxies true true) :: rest.
Proof.
  intros Hb Ha [ct Hct].
  unfold request, try_except, request_body, resolved_proxies, request_headers.
  rewrite (stripped_config_falsy_or_str _ Hb),
    (stripped_config_falsy_or_str _ Ha), Hct.
  unfold bind at 1 2 3. unfold lift. unfold retry_on_status.
  match goal with |- context [retry_loop ?n ?f s] =>
    destruct (retry_loop_first_call session
                (build_url (normalize_path file_path))
                (navigation_headers
                   (build_headers token ct "https://assets.grok.com"
                      "https://grok.com/"))
                (get_config "asset.download_timeout")
                (get_config "proxy.browser")
                (make_proxies
                   (choose_proxy
                      (config_text (get_config "proxy.asset_proxy_url"))
                      (config_text (get_config "proxy.base_proxy_url"))))
                n s) as [rest Hrest];
    destruct (retry_loop n f s) as [[r|e] s1]
  end; cbn [snd] in *.
  - exists rest. apply new_events_app. exact Hrest.
  - destruct (request_handler_appends token e s1) as [evs [Et _]].
    exists (rest ++ evs). apply new_events_app.
    rewrite Et, Hrest, <- app_assoc. reflexivity.
Qed.

(** C6. Whenever the configured proxy URLs are values on which [.strip()]
    does not raise (strings, and the falsy values, which read as absent),
    the proxy of Tier 1 is the asset proxy URL when that is not empty once
    stripped, else the base proxy URL when that is not empty once stripped,
    else none at all. *)
Theorem proxy_precedence session token file_path (s : state) :
  falsy_or_str (get_config "proxy.base_proxy_url") ->
  falsy_or_str (get_config "proxy.asset_proxy_url") ->
  (exists ct, guess_content_type (normalize_path file_path) = Ok ct) ->
  let asset_proxy := config_text (get_config "proxy.asset_proxy_url") in
  let base_proxy := config_text (get_config "proxy.base_proxy_url") in
  let chosen :=
    if negb (asset_proxy =? "")%string
    then Some [("http", asset_proxy); ("https", asset_proxy)]
    else if negb (base_proxy =? "")%string
         then Some [("http", base_proxy); ("https", base_proxy)]
         else None in
  resolved_proxies = chosen /\
  exists kw rest,
    new_events s (snd (request session token file_path s)) =
      EvGet (build_url (normalize_path file_path)) kw :: rest /\
    kw_proxies kw = chosen.
Proof.
  intros Hb Ha Hct. cbv zeta.
  assert (Hres : resolved_proxies =
    if negb (config_text (get_config "proxy.asset_proxy_url") =? "")%string
    then Some [("http", config_text (get_config "proxy.asset_proxy_url"));
               ("https", config_text (get_config "proxy.asset_proxy_url"))]
    else if negb (config_text (get_config "proxy.base_proxy_url") =? "")%string
         then Some [("http", config_text (get_config "proxy.base_proxy_url"));
                    ("https", config_text (get_config "proxy.base_proxy_url"))]
         else None).
  { unfold resolved_proxies.
    rewrite (stripped_config_falsy_or_str _ Hb),
      (stripped_config_falsy_or_str _ Ha).
    unfold make_proxies, choose_proxy.
    destruct (config_text (get_config "proxy.asset_proxy_url") =? "")%string
      eqn:Easset; cbn [negb]; [|rewrite Easset; reflexivity].
    destruct (config_text (get_config "proxy.base_proxy_url") =? "")%string;
      reflexivity. }
  split; [exact Hres|].
  destruct (request_first_call session token file_path s Hb Ha Hct)
    as [rest Hrest].
  eexists. exists rest. split; [exact Hrest|].
  cbn [kw_proxies make_kwargs andb]. rewrite Hres.
  destruct (negb (config_text (get_config "proxy.asset_proxy_url") =? "")%string);
    [reflexivity|].
  destruct (negb (config_text (get_config "proxy.base_proxy_url") =? "")%string);
    reflexivity.
Qed.

Lemma request_only_emits session token file_path :
  only_emits
    (fun ev =>
       cascade_event (build_url (normalize_path file_path))
         (request_headers token file_path)
         (get_config "asset.download_timeout")
         (get_config "proxy.browser")
         resolved_proxies ev
       \/ is_transport_call ev = false)
    (request session token file_path).
Proof.
  apply only_emits_try_except.
  - eapply only_emits_weaken; [|apply request_body_only_emits].
    intros ev H. left. exact H.
  - intros [u|ty text]; cbn [request_handler].
    + apply only_emits_bind; [|intros _; apply only_emits_raise].
      destruct (py_eqb _ _); [|apply only_emits_ret].
      apply only_emits_try_except;
        [apply only_emits_call; right; reflexivity
        | intros _; apply only_emits_ret].
    + apply only_emits_bind; [|intros _; apply only_emits_raise].
      apply only_emits_emit. right. reflexivity.
Qed.

Lemma request_events session token file_path (s : state) ev :
  In ev (new_events s (snd (request session token file_path s))) ->
  cascade_event (build_url (normalize_path file_path))
    (request_headers token file_path)
    (get_config "asset.download_timeout")
    (get_config "proxy.browser")
    resolved_proxies ev
  \/ is_transport_call ev = false.
Proof.
  destruct (request_only_emits session token file_path s) as [evs [Et Hevs]].
  rewrite (new_events_app _ _ _ Et).
  rewrite Forall_forall in Hevs. apply Hevs.
Qed.

Lemma absent_or_blank_text (v : pyval) :
  absent_or_blank v -> absent_or_str v /\ config_text v = "".
Proof.
  intros [->|[t [-> Ht]]]; (split; [|assumption || reflexivity]).
  - left. reflexivity.
  - right. exists t. reflexivity.
Qed.

(** C7, as the code has it.  With no proxy URL configured no call carries
    proxies; with no browser profile configured no call impersonates; and
    every transport call carries as its timeout the value the lookup of
    [asset.download_timeout] returned, whatever it is: when the lookup
    returns [None], [None] is what the transports receive. *)
Theorem degrade_without_configuration session token file_path (s : state) :
  let evs := new_events s (snd (request session token file_path s)) in
  (absent_or_blank (get_config "proxy.base_proxy_url") ->
   absent_or_blank (get_config "proxy.asset_proxy_url") ->
   forall u kw, In (EvGet u kw) evs -> kw_proxies kw = None) /\
  (truthy (get_config "proxy.browser") = false ->
   forall u kw, In (EvGet u kw) evs -> kw_impersonate kw = None) /\
  (forall u kw, In (EvGet u kw) evs ->
   kw_timeout kw = get_config "asset.download_timeout") /\
  (forall u h t, In (EvUrlopen u h t) evs ->
   t = get_config "asset.download_timeout").
Proof.
  cbv zeta. repeat split.
  - intros Hb Ha u kw Hin.
    apply absent_or_blank_text in Hb, Ha.
    destruct Hb as [Hb Hbt], Ha as [Ha Hat].
    assert (Hnone : resolved_proxies = None).
    { unfold resolved_proxies.
      rewrite (stripped_config_text _ Hb), (stripped_config_text _ Ha).
      rewrite Hbt, Hat. reflexivity. }
    apply request_events in Hin. destruct Hin as [[_ Hkw]|Hno];
      [|discriminate Hno].
    rewrite Hnone in Hkw. destruct Hkw as [->| ->]; reflexivity.
  - intros Hbrowser u kw Hin.
    apply request_events in Hin. destruct Hin as [[_ Hkw]|Hno];
      [|discriminate Hno].
    destruct Hkw as [->| ->]; cbn [kw_impersonate make_kwargs andb];
      [rewrite Hbrowser|]; reflexivity.
  - intros u kw Hin.
    apply request_events in Hin. destruct Hin as [[_ Hkw]|Hno];
      [|discriminate Hno].
    destruct Hkw as [->| ->]; reflexivity.
  - intros u h t Hin.
    apply request_events in Hin. destruct Hin as [[_ [_ Ht]]|Hno];
      [exact Ht | discriminate Hno].
Qed.

(** ** The whole request *)

Lemma retry_loop_ok {A} (n : nat) (func : M A) : forall s r,
  fst (retry_loop n func s) = Ok r -> exists s0, fst (func s0) = Ok r.
Proof.
  induction n as [|n IH]; intros s r; cbn [retry_loop]; unfold try_except;
    destruct (func s) as [[a|e] s1] eqn:E; cbn [fst].
  - intros [= <-]. exists s. rewrite E. reflexivity.
  - discriminate.
  - intros [= <-]. exists s. rewrite E. reflexivity.
  - destruct (retryable e); [|discriminate].
    unfold bind, emit. apply IH.
Qed.

Lemma retry_loop_other {A} (n : nat) (func : M A) s ty text :
  fst (func s) = Raise (OtherException ty text) ->
  retry_loop n func s = func s.
Proof.
  intros H. destruct n; cbn [retry_loop]; unfold try_except;
    destruct (func s) as [[a|e] s1]; cbn [fst] in H; try discriminate H;
    injection H as ->; reflexivity.
Qed.

Lemma request_handler_raises token e s :
  exists e', fst (request_handler token e s) = Raise e'.
Proof.
  destruct e as [u|ty text]; cbn [request_handler];
    unfold bind, try_except, call, emit, raise, ret.
  - destruct (py_eqb _ _);
      [destruct (record_fail _ _ _ _) as [[[]|e] w]|]; eexists; reflexivity.
  - eexists. reflexivity.
Qed.

(** The steps before the cascade, when they succeed. *)
Lemma request_body_reaches_cascade session token file_path :
  absent_or_str (get_config "proxy.base_proxy_url") ->
  absent_or_str (get_config "proxy.asset_proxy_url") ->
  (exists ct, guess_content_type (normalize_path file_path) = Ok ct) ->
  request_body session token file_path =
  retry_on_status
    (_do_request session (build_url (normalize_path file_path))
       (request_headers token file_path)
       (get_config "asset.download_timeout") (get_config "proxy.browser")
       resolved_proxies).
Proof.
  intros Hb Ha [ct Hct].
  unfold request_body, resolved_proxies, request_headers.
  rewrite (stripped_config_text _ Hb), (stripped_config_text _ Ha), Hct.
  reflexivity.
Qed.

(** The steps before the cascade, when one of them raises. *)
Lemma request_preliminary_failure session token file_path (s : state) ty text :
  stripped_config (get_config "proxy.base_proxy_url")
    = Raise (OtherException ty text)
  \/ (exists b, stripped_config (get_config "proxy.base_proxy_url") = Ok b) /\
     stripped_config (get_config "proxy.asset_proxy_url")
       = Raise (OtherException ty text)
  \/ (exists b, stripped_config (get_config "proxy.base_proxy_url") = Ok b) /\
     (exists a, stripped_config (get_config "proxy.asset_proxy_url") = Ok a) /\
     guess_content_type (normalize_path file_path)
       = Raise (OtherException ty text) ->
  request session token file_path s =
  (Raise (new_UpstreamException (download_failed_message text)
            [("status", PyInt 502); ("error", PyStr text)]),
   {| world := world s;
      trace := trace s ++ [EvLog ERROR (download_failed_message text)
                             (Some ty)] |}).
Proof.
  unfold request, try_except, request_body.
  intros [Hb|[[[b Hb] Ha]|[[b Hb] [[a Ha] Hct]]]].
  - rewrite Hb. reflexivity.
  - rewrite Hb, Ha. reflexivity.
  - rewrite Hb, Ha, Hct. reflexivity.
Qed.

(** X8. A request that returns hands back a response of status 200 and has
    not called [record_fail]. *)
Theorem successful_request_is_200 session token file_path (s : state) r :
  fst (request session token file_path s) = Ok r ->
  response_status r = 200 /\
  filter is_record_fail
    (new_events s (snd (request session token file_path s))) = [].
Proof.
  unfold request, try_except.
  destruct (request_body_only_emits session token file_path s)
    as [evs [Et Hevs]].
  apply cascade_event_not_record_fail in Hevs.
  destruct (request_body session token file_path s) as [[r0|e] s1] eqn:Ebody;
    cbn [fst snd] in *.
  - intros [= <-]. split.
    + assert (Hr : fst (request_body session token file_path s) = Ok r0)
        by (rewrite Ebody; reflexivity).
      revert Hr. unfold request_body.
      destruct (stripped_config (get_config "proxy.base_proxy_url"));
        [|discriminate].
      destruct (stripped_config (get_config "proxy.asset_proxy_url"));
        [|discriminate].
      destruct (guess_content_type (normalize_path file_path));
        [|discriminate].
      unfold bind at 1 2 3. unfold lift, retry_on_status. intros Hr.
      apply retry_loop_ok in Hr. destruct Hr as [s0 Hr].
      apply cascade_ok_is_200 in Hr. exact Hr.
    + rewrite (new_events_app _ _ _ Et). exact Hevs.
  - destruct (request_handler_raises token e s1) as [e' He'].
    rewrite He'. discriminate.
Qed.

(** X9. A proxy setting that is a number other than zero makes every request
    fail with the status 502 before any transport is called: the only thing
    the request does is log the error. *)
Theorem numeric_proxy_setting_fails session token file_path (s : state) z :
  z <> 0 ->
  get_config "proxy.base_proxy_url" = PyInt z \/
  get_config "proxy.asset_proxy_url" = PyInt z ->
  request session token file_path s =
  (Raise (new_UpstreamException
            (download_failed_message "'int' object has no attribute 'strip'")
            [("status", PyInt 502);
             ("error", PyStr "'int' object has no attribute 'strip'")]),
   {| world := world s;
      trace := trace s ++
        [EvLog ERROR
           (download_failed_message "'int' object has no attribute 'strip'")
           (Some "AttributeError")] |}).
Proof.
  intros Hz Hcfg. apply request_preliminary_failure.
  assert (Hraise : stripped_config (PyInt z) =
            Raise (OtherException "AttributeError"
                     "'int' object has no attribute 'strip'")).
  { unfold stripped_config, py_or, truthy.
    destruct (Z.eqb_spec z 0); [contradiction | reflexivity]. }
  destruct Hcfg as [Hb|Ha].
  - left. rewrite Hb. exact Hraise.
  - destruct (stripped_config (get_config "proxy.base_proxy_url"))
      as [b|e] eqn:Eb.
    + right. left. split; [exists b; reflexivity|]. rewrite Ha. exact Hraise.
    + left. revert Eb. unfold stripped_config, py_or.
      destruct (get_config "proxy.base_proxy_url") as [|z'|t]; cbn [truthy].
      * discriminate.
      * destruct (z' =? 0); cbn [negb py_strip]; [discriminate|].
        intros [= <-]. reflexivity.
      * destruct (negb (t =? "")%string); discriminate.
Qed.

(** X10. A path that [urlparse] rejects makes the request fail with the
    status 502 and the text of the rejection, before any transport is
    called. *)
Theorem rejected_path_fails_without_call session token file_path (s : state)
  ty text :
  absent_or_str (get_config "proxy.base_proxy_url") ->
  absent_or_str (get_config "proxy.asset_proxy_url") ->
  urlparse_path (normalize_path file_path) = Raise (OtherException ty text) ->
  request session token file_path s =
  (Raise (new_UpstreamException (download_failed_message text)
            [("status", PyInt 502); ("error", PyStr text)]),
   {| world := world s;
      trace := trace s ++ [EvLog ERROR (download_failed_message text)
                             (Some ty)] |}).
Proof.
  intros Hb Ha Hparse. apply request_preliminary_failure.
  right. right.
  split; [eexists; apply stripped_config_text; exact Hb|].
  split; [eexists; apply stripped_config_text; exact Ha|].
  unfold guess_content_type. rewrite Hparse. reflexivity.
Qed.

Lemma build_url_prefix (p : string) :
  startswith (build_url (normalize_path p)) "https://assets.grok.com/" = true.
Proof.
  unfold normalize_path.
  destruct (startswith p "/") eqn:E; cbn [negb]; [|reflexivity].
  destruct p as [|c p]; [discriminate E|].
  cbn [startswith] in E. apply andb_prop in E. destruct E as [Ec _].
  apply Ascii.eqb_eq in Ec. subst c. reflexivity.
Qed.

(** X11. Every transport call of a request, at whatever tier and attempt,
    goes to the same URL, [https://assets.grok.com] followed by the
    normalised path, and carries the same headers; the [session.get] calls
    always follow redirects and stream. *)
Theorem calls_share_target_and_headers session token file_path (s : state) ev :
  In ev (new_events s (snd (request session token file_path s))) ->
  startswith (build_url (normalize_path file_path))
    "https://assets.grok.com/" = true /\
  match ev with
  | EvGet u kw =>
      u = build_url (normalize_path file_path) /\
      kw_headers kw = request_headers token file_path /\
      kw_allow_redirects kw = true /\ kw_stream kw = true
  | EvUrlopen u h _ =>
      u = build_url (normalize_path file_path) /\
      h = request_headers token file_path
  | _ => True
  end.
Proof.
  intros Hin. split; [apply build_url_prefix|].
  apply request_events in Hin.
  destruct ev as [lv msg ty|u kw|u h t| |tok st reason]; try exact I.
  - destruct Hin as [[Hu Hkw]|Hno]; [|discriminate Hno].
    split; [exact Hu|]. destruct Hkw as [->| ->]; repeat split.
  - destruct Hin as [[Hu [Hh _]]|Hno]; [|discriminate Hno].
    split; assumption.
Qed.

(** X12. When Tiers 1 and 2 fail and [urlopen] raises an exception that is
    not an [UpstreamException], the request ends with the status 502 and
    [record_fail] is not called, whatever Tiers 1 and 2 answered, 401
    included. *)
Theorem tier3_exception_hides_status session token file_path (s : state)
  ty text :
  absent_or_str (get_config "proxy.base_proxy_url") ->
  absent_or_str (get_config "proxy.asset_proxy_url") ->
  (exists ct, guess_content_type (normalize_path file_path) = Ok ct) ->
  tier_ok
    (fst (tier1_outcome session (build_url (normalize_path file_path))
            (request_headers token file_path)
            (get_config "asset.download_timeout")
            (get_config "proxy.browser") resolved_proxies (world s)))
  = false ->
  tier_ok
    (fst (tier2_outcome session (build_url (normalize_path file_path))
            (request_headers token file_path)
            (get_config "asset.download_timeout")
            (get_config "proxy.browser") resolved_proxies (world s)))
  = false ->
  fst (tier3_outcome session (build_url (normalize_path file_path))
         (request_headers token file_path)
         (get_config "asset.download_timeout")
         (get_config "proxy.browser") resolved_proxies (world s))
  = Raise (OtherException ty text) ->
  fst (request session token file_path s) =
    Raise (new_UpstreamException (download_failed_message text)
             [("status", PyInt 502); ("error", PyStr text)]) /\
  filter is_record_fail
    (new_events s (snd (request session token file_path s))) = [].
Proof.
  intros Hb Ha Hct Hf1 Hf2 H3.
  pose proof (cascade_tier3_raises _ _ _ _ _ _ s _ Hf1 Hf2 H3) as Hcascade.
  destruct (request_body_only_emits session token file_path s)
    as [evs [Et Hevs]].
  apply cascade_event_not_record_fail in Hevs.
  revert Et. unfold request, try_except.
  rewrite (request_body_reaches_cascade _ _ _ Hb Ha Hct).
  unfold retry_on_status. rewrite (retry_loop_other _ _ _ _ _ Hcascade).
  destruct (_do_request _ _ _ _ _ _ s) as [[r|e] s1]; cbn [fst snd] in *;
    [discriminate Hcascade|].
  injection Hcascade as ->. intros Et.
  cbn [request_handler]. unfold bind, emit, raise.
  cbn [fst snd trace str_exn type_name_of]. split; [reflexivity|].
  erewrite new_events_app by (rewrite Et, <- app_assoc; reflexivity).
  rewrite filter_app, Hevs. reflexivity.
Qed.

(** ** Path normalisation *)

Lemma normalize_path_prefixed (p : string) :
  normalize_path ("/" ++ p) = ("/" ++ p)%string.
Proof. reflexivity. Qed.

(** C8. A path that does not begin with the separator is handled as the same
    path with one separator put in front: the normalisation adds exactly
    one, leaves alone a path that begins with one, and so both requests
    build the same URL and run alike. *)
Theorem leading_separator_added session token (p : string) :
  startswith p "/" = false ->
  normalize_path p = ("/" ++ p)%string /\
  (forall q, startswith q "/" = true -> normalize_path q = q) /\
  build_url (normalize_path p) = build_url (normalize_path ("/" ++ p)) /\
  (forall s, request session token p s = request session token ("/" ++ p) s).
Proof.
  intros Hp.
  assert (Hn : normalize_path p = ("/" ++ p)%string)
    by (unfold normalize_path; rewrite Hp; reflexivity).
  repeat split.
  - exact Hn.
  - intros q Hq. unfold normalize_path. rewrite Hq. reflexivity.
  - rewrite Hn, normalize_path_prefixed. reflexivity.
  - intros s. unfold request, request_body.
    rewrite Hn, normalize_path_prefixed. reflexivity.
Qed.

End Adapter.

Example aiter_content_5_2 :
  aiter_content (mkSimpleResponse 200 [] [x01; x02; x03; x04; x05]) 2
  = Some [[x01; x02]; [x03; x04]; [x05]].
Proof. reflexivity. Qed.


(* ================================================================== *)
(** * The properties on the scripted world *)

Local Notation "'scripted_request' cfg gets opens attempts" :=
  (request nat unit Z (fun z : Z => z) (Scenario.session_get gets)
     (Scenario.urlopen opens) Scenario.record_fail_down cfg
     Scenario.build_headers Scenario.urlparse_path Scenario.Path_suffix
     (PyInt 502) Scenario.retry_statuses attempts tt)
  (at level 10, cfg, gets, opens, attempts at level 9).

Local Notation "'scripted_body' cfg gets opens attempts" :=
  (request_body nat unit Z (fun z : Z => z) (Scenario.session_get gets)
     (Scenario.urlopen opens) cfg
     Scenario.build_headers Scenario.urlparse_path Scenario.Path_suffix
     (PyInt 502) Scenario.retry_statuses attempts tt)
  (at level 10, cfg, gets, opens, attempts at level 9).

Local Notation "'scripted_cascade' gets opens" :=
  (_do_request nat unit Z (fun z : Z => z) (Scenario.session_get gets)
     (Scenario.urlopen opens) (PyInt 502) tt "https://assets.grok.com/a.png"
     [] (PyInt 30) (PyStr "chrome") None)
  (at level 10, gets, opens at level 9).

Local Notation "'start'" := (mk_state nat 0%nat []).

Local Notation "'upstream_failure' status" :=
  {| message := download_failed_message (str_of_int status);
     details := [("status", PyInt status)];
     attr_status_code := PyInt 502 |}
  (at level 10, status at level 9).

Lemma cascade_escalation_witness :
  fst (scripted_cascade Scenario.tls_then_403 (fun _ => Scenario.answer 204)
         start)
  = Raise (Upstream (upstream_failure 204)).
Proof.
  pose proof (cascade_escalation nat unit Z (fun z : Z => z)
                (Scenario.session_get Scenario.tls_then_403)
                (Scenario.urlopen (fun _ => Scenario.answer 204))
                (PyInt 502) tt "https://assets.grok.com/a.png" []
                (PyInt 30) (PyStr "chrome") None start) as H.
  cbv zeta in H. destruct H as (_ & _ & _ & _ & _ & _ & _ & H).
  apply (H eq_refl eq_refl
           {| resp_status := StatusInt 204;
              resp_header_items := [("Content-Type", "image/png")];
              resp_body := [] |} eq_refl).
  vm_compute. discriminate.
Defined.

Lemma success_is_status_200_witness :
  fst (scripted_cascade (Scenario.always 200) (fun _ => Scenario.answer 200)
         start)
  = Ok (CurlResp Z 200) /\
  filter is_transport_call
    (new_events nat start
       (snd (scripted_cascade (Scenario.always 200)
               (fun _ => Scenario.answer 200) start)))
  = [EvGet "https://assets.grok.com/a.png"
       (make_kwargs [] (PyInt 30) (PyStr "chrome") None true true)].
Proof.
  pose proof (success_is_status_200 nat unit Z (fun z : Z => z)
                (Scenario.session_get (Scenario.always 200))
                (Scenario.urlopen (fun _ => Scenario.answer 200))
                (PyInt 502) tt "https://assets.grok.com/a.png" []
                (PyInt 30) (PyStr "chrome") None start) as H.
  cbv zeta in H. destruct H as (_ & H & _).
  apply (H 200 eq_refl eq_refl).
Defined.

Lemma record_fail_iff_401_witness :
  fst (scripted_request Scenario.no_config (Scenario.always 401)
         (fun _ => Scenario.answer 401) 2 "tok" "a/b.png" start)
  = Raise (Upstream (upstream_failure 401)) /\
  filter is_record_fail
    (new_events nat start
       (snd (scripted_request Scenario.no_config (Scenario.always 401)
               (fun _ => Scenario.answer 401) 2 "tok" "a/b.png" start)))
  = [EvRecordFail "tok" (PyInt 401) "assets_download_auth_failed"].
Proof.
  pose proof (record_fail_iff_401 nat unit Z (fun z : Z => z)
                (Scenario.session_get (Scenario.always 401))
                (Scenario.urlopen (fun _ => Scenario.answer 401))
                Scenario.record_fail_down Scenario.no_config
                Scenario.build_headers Scenario.urlparse_path
                Scenario.Path_suffix (PyInt 502) Scenario.retry_statuses 2%nat
                tt "tok" "a/b.png" start) as [Hsame Hcount].
  split.
  - apply (Hsame (upstream_failure 401)). vm_compute. reflexivity.
  - apply (Hcount (upstream_failure 401)). vm_compute. reflexivity.
Defined.

Lemma aiter_content_chunks_witness :
  0 < 2 /\
  exists chunks,
    aiter_content (mkSimpleResponse 200 [] [x01; x02; x03; x04; x05]) 2
    = Some chunks /\
    Z.of_nat (length chunks) = (5 + 2 - 1) / 2 /\
    concat chunks = [x01; x02; x03; x04; x05] /\
    Forall (fun c => Z.of_nat (length c) = 2) (removelast chunks) /\
    (chunks <> [] -> 0 < Z.of_nat (length (last chunks [])) <= 2) /\
    (5%nat = 0%nat -> chunks = []) /\
    default_chunk_size = 65536.
Proof.
  split; [lia|].
  apply (aiter_content_chunks
           (mkSimpleResponse 200 [] [x01; x02; x03; x04; x05]) 2).
  lia.
Defined.

Lemma other_exceptions_wrapped_502_witness :
  fst (scripted_body Scenario.bad_config (Scenario.always 200)
         (fun _ => Scenario.answer 200) 2 "tok" "a/b.png" start)
  = Raise (OtherException "AttributeError"
             "'int' object has no attribute 'strip'") /\
  fst (scripted_request Scenario.bad_config (Scenario.always 200)
         (fun _ => Scenario.answer 200) 2 "tok" "a/b.png" start)
  = Raise (Upstream
             {| message :=
                  "AssetsDownloadReverse: Download failed, 'int' object has no attribute 'strip'";
                details :=
                  [("status", PyInt 502);
                   ("error", PyStr "'int' object has no attribute 'strip'")];
                attr_status_code := PyInt 502 |}).
Proof.
  split; [vm_compute; reflexivity|].
  apply (proj1 (other_exceptions_wrapped_502 nat unit Z (fun z : Z => z)
                  (Scenario.session_get (Scenario.always 200))
                  (Scenario.urlopen (fun _ => Scenario.answer 200))
                  Scenario.record_fail_down Scenario.bad_config
                  Scenario.build_headers Scenario.urlparse_path
                  Scenario.Path_suffix (PyInt 502) Scenario.retry_statuses
                  2%nat tt "tok" "a/b.png" start)
           "AttributeError" "'int' object has no attribute 'strip'").
  vm_compute. reflexivity.
Defined.

Lemma proxy_precedence_witness :
  resolved_proxies Scenario.proxy_config
  = Some [("http", "http://asset:8080"); ("https", "http://asset:8080")] /\
  exists kw rest,
    new_events nat start
      (snd (scripted_request Scenario.proxy_config (Scenario.always 200)
              (fun _ => Scenario.answer 200) 2 "tok" "a/b.png" start))
    = EvGet "https://assets.grok.com/a/b.png" kw :: rest /\
    kw_proxies kw
    = Some [("http", "http://asset:8080"); ("https", "http://asset:8080")].
Proof.
  apply (proxy_precedence nat unit Z (fun z : Z => z)
           (Scenario.session_get (Scenario.always 200))
           (Scenario.urlopen (fun _ => Scenario.answer 200))
           Scenario.record_fail_down Scenario.proxy_config
           Scenario.build_headers Scenario.urlparse_path
           Scenario.Path_suffix (PyInt 502) Scenario.retry_statuses 2%nat
           tt "tok" "a/b.png" start).
  - right. exists "http://base:3128". reflexivity.
  - right. exists " http://asset:8080 ". reflexivity.
  - exists (Some "image/png"). reflexivity.
Defined.

(** With nothing configured the transports are handed [None] as their
    timeout: the adapter puts no default in its place. *)
Lemma no_default_timeout_applied :
  Scenario.no_config "asset.download_timeout" = PyNone /\
  map call_timeout
    (filter is_transport_call
       (new_events nat start
          (snd (scripted_request Scenario.no_config (Scenario.always 401)
                  (fun _ => Scenario.answer 401) 2 "tok" "a/b.png" start))))
  = [Some PyNone; Some PyNone; Some PyNone].
Proof. split; vm_compute; reflexivity. Qed.

Lemma degrade_without_configuration_witness :
  let kw :=
    make_kwargs
      (navigation_headers
         (Scenario.build_headers "tok" (Some "image/png")
            "https://assets.grok.com" "https://grok.com/"))
      PyNone PyNone None true true in
  kw_proxies kw = None /\ kw_impersonate kw = None /\ kw_timeout kw = PyNone.
Proof.
  pose proof (degrade_without_configuration nat unit Z (fun z : Z => z)
                (Scenario.session_get (Scenario.always 401))
                (Scenario.urlopen (fun _ => Scenario.answer 401))
                Scenario.record_fail_down Scenario.no_config
                Scenario.build_headers Scenario.urlparse_path
                Scenario.Path_suffix (PyInt 502) Scenario.retry_statuses 2%nat
                tt "tok" "a/b.png" start) as H.
  cbv zeta in H. destruct H as (Hproxy & Hbrowser & Htimeout & _).
  cbv zeta. split; [|split].
  - apply (Hproxy (or_introl eq_refl) (or_introl eq_refl)
             "https://assets.grok.com/a/b.png").
    vm_compute. left. reflexivity.
  - apply (Hbrowser eq_refl "https://assets.grok.com/a/b.png").
    vm_compute. left. reflexivity.
  - apply (Htimeout "https://assets.grok.com/a/b.png").
    vm_compute. left. reflexivity.
Defined.

Lemma leading_separator_added_witness :
  startswith "a/b.png" "/" = false /\
  normalize_path "a/b.png" = "/a/b.png" /\
  (forall q, startswith q "/" = true -> normalize_path q = q) /\
  build_url (normalize_path "a/b.png") = build_url (normalize_path "/a/b.png") /\
  (forall s,
     scripted_request Scenario.no_config (Scenario.always 200)
       (fun _ => Scenario.answer 200) 2 "tok" "a/b.png" s
     = scripted_request Scenario.no_config (Scenario.always 200)
         (fun _ => Scenario.answer 200) 2 "tok" "/a/b.png" s).
Proof.
  split; [reflexivity|].
  apply (leading_separator_added nat unit Z (fun z : Z => z)
           (Scenario.session_get (Scenario.always 200))
           (Scenario.urlopen (fun _ => Scenario.answer 200))
           Scenario.record_fail_down Scenario.no_config
           Scenario.build_headers Scenario.urlparse_path
           Scenario.Path_suffix (PyInt 502) Scenario.retry_statuses 2%nat
           tt "tok" "a/b.png").
  reflexivity.
Defined.



Lemma content_type_ignores_case_witness :
  In (".png", "image/png") _CONTENT_TYPES /\
  lower ".PNG" = lower ".png" /\
  content_type_of_suffix ".PNG" = Some "image/png" /\
  guess_content_type Scenario.urlparse_path Scenario.Path_suffix
    "/users/7/generated/Image.PNG" = Ok (Some "image/png") /\
  guess_content_type Scenario.urlparse_path Scenario.Path_suffix
    "/users/7/generated/notes.txt" = Ok None.
Proof.
  pose proof (content_type_ignores_case Scenario.build_headers
                Scenario.urlparse_path Scenario.Path_suffix)
    as (_ & Hkey & _ & _ & Hknown & Hunknown & _).
  split; [right; right; left; reflexivity|].
  split; [reflexivity|].
  split; [|split].
  - apply (Hkey ".PNG" ".png" "image/png").
    + right. right. left. reflexivity.
    + reflexivity.
  - apply (Hknown "/users/7/generated/Image.PNG"
             "/users/7/generated/Image.PNG" ".png" "image/png").
    + reflexivity.
    + right. right. left. reflexivity.
    + reflexivity.
  - apply (Hunknown "/users/7/generated/notes.txt"
             "/users/7/generated/notes.txt").
    + reflexivity.
    + vm_compute. intros H.
      repeat (destruct H as [H|H]; [discriminate H|]). exact H.
Defined.

(** On the scripted world a retryable terminal status makes the retry policy
    run the three tiers again from the first: six transport calls and one
    wait for a budget of two attempts. *)
Example retry_restarts_from_tier1 :
  let evs :=
    new_events nat start
      (snd (scripted_request Scenario.no_config (Scenario.always 503)
              (fun _ => Scenario.answer 503) 2 "tok" "a/b.png" start)) in
  map (fun ev => match ev with EvUrlopen _ _ _ => 3 | _ => 0 end)
      (filter is_transport_call evs) = [0; 0; 3; 0; 0; 3] /\
  length (filter (fun ev => match ev with EvSleep => true | _ => false end) evs)
  = 1%nat.
Proof. split; vm_compute; reflexivity. Qed.

Lemma aiter_content_degenerate_sizes_witness :
  aiter_content (mkSimpleResponse 200 [] [x01; x02; x03]) 0 = None /\
  aiter_content (mkSimpleResponse 200 [] [x01; x02; x03]) (-2) = Some [].
Proof.
  pose proof (aiter_content_degenerate_sizes
                (mkSimpleResponse 200 [] [x01; x02; x03]) 0) as [H0 _].
  pose proof (aiter_content_degenerate_sizes
                (mkSimpleResponse 200 [] [x01; x02; x03]) (-2)) as [_ Hneg].
  split; [apply H0; reflexivity | apply Hneg; lia].
Defined.

Lemma aiter_content_nth_witness :
  0 < 2 /\
  exists chunks,
    aiter_content (mkSimpleResponse 200 [] [x01; x02; x03; x04; x05]) 2
    = Some chunks /\
    nth_error chunks 2 = Some [x05].
Proof.
  split; [lia|].
  apply (aiter_content_nth
           (mkSimpleResponse 200 [] [x01; x02; x03; x04; x05]) 2 2).
  lia.
Defined.

Lemma cascade_failure_is_tier3_witness :
  filter is_transport_call
    (new_events nat start
       (snd (scripted_cascade Scenario.tls_then_403
               (fun _ => Scenario.answer 204) start)))
  = [EvGet "https://assets.grok.com/a.png"
       (make_kwargs [] (PyInt 30) (PyStr "chrome") None true true);
     EvGet "https://assets.grok.com/a.png"
       (make_kwargs [] (PyInt 30) (PyStr "chrome") None false false);
     EvUrlopen "https://assets.grok.com/a.png" [] (PyInt 30)].
Proof.
  pose proof (cascade_failure_is_tier3 nat unit Z (fun z : Z => z)
                (Scenario.session_get Scenario.tls_then_403)
                (Scenario.urlopen (fun _ => Scenario.answer 204))
                (PyInt 502) tt "https://assets.grok.com/a.png" []
                (PyInt 30) (PyStr "chrome") None start
                (Upstream (upstream_failure 204))) as H.
  destruct (H eq_refl) as (_ & _ & Hcalls & _).
  exact Hcalls.
Defined.

Lemma fallback_streams_body_read_witness :
  0 < 3 /\
  exists raw chunks,
    fst (tier3_outcome nat unit Z (Scenario.session_get Scenario.tls_then_403)
           (Scenario.urlopen (fun _ => Scenario.answer_without_status))
           tt "https://assets.grok.com/a.png" [] (PyInt 30) (PyStr "chrome")
           None 0%nat) = Ok raw /\
    {| status_code := 200;
       headers := [("content-type", "image/png"); ("set-cookie", "b=2")];
       content := [x89; x50; x4e; x47] |} = adapt_response raw /\
    200 = 200 /\
    aiter_content
      {| status_code := 200;
         headers := [("content-type", "image/png"); ("set-cookie", "b=2")];
         content := [x89; x50; x4e; x47] |} 3 = Some chunks /\
    concat chunks = resp_body raw.
Proof.
  split; [lia|].
  apply (fallback_streams_body_read nat unit Z (fun z : Z => z)
           (Scenario.session_get Scenario.tls_then_403)
           (Scenario.urlopen (fun _ => Scenario.answer_without_status))
           (PyInt 502) tt "https://assets.grok.com/a.png" []
           (PyInt 30) (PyStr "chrome") None start
           {| status_code := 200;
              headers := [("content-type", "image/png"); ("set-cookie", "b=2")];
              content := [x89; x50; x4e; x47] |} 3).
  - vm_compute. reflexivity.
  - lia.
Defined.

Lemma navigation_headers_override_witness :
  dict_get
    (navigation_headers [("Accept", "image/png"); ("Pragma", "cache")])
    "Pragma" = Some "no-cache" /\
  dict_get
    (navigation_headers [("Accept", "image/png"); ("Pragma", "cache")])
    "Accept" = Some "image/png".
Proof.
  pose proof (navigation_headers_override
                [("Accept", "image/png"); ("Pragma", "cache")])
    as (Hset & Hkeep & _).
  split.
  - apply Hset. right. left. reflexivity.
  - apply (Hkeep "Accept"). cbn.
    intros H. repeat (destruct H as [H|H]; [discriminate H|]). exact H.
Defined.

Lemma successful_request_is_200_witness :
  fst (scripted_request Scenario.no_config (Scenario.always 200)
         (fun _ => Scenario.answer 200) 2 "tok" "a/b.png" start)
  = Ok (CurlResp Z 200) /\
  response_status Z (fun z : Z => z) (CurlResp Z 200) = 200 /\
  filter is_record_fail
    (new_events nat start
       (snd (scripted_request Scenario.no_config (Scenario.always 200)
               (fun _ => Scenario.answer 200) 2 "tok" "a/b.png" start)))
  = [].
Proof.
  split; [vm_compute; reflexivity|].
  apply (successful_request_is_200 nat unit Z (fun z : Z => z)
           (Scenario.session_get (Scenario.always 200))
           (Scenario.urlopen (fun _ => Scenario.answer 200))
           Scenario.record_fail_down Scenario.no_config
           Scenario.build_headers Scenario.urlparse_path
           Scenario.Path_suffix (PyInt 502) Scenario.retry_statuses 2%nat
           tt "tok" "a/b.png" start (CurlResp Z 200)).
  vm_compute. reflexivity.
Defined.

Lemma numeric_proxy_setting_fails_witness :
  8080 <> 0 /\
  scripted_request Scenario.bad_config (Scenario.always 200)
    (fun _ => Scenario.answer 200) 2 "tok" "a/b.png" start
  = (Raise (Upstream
              {| message :=
                   download_failed_message
                     "'int' object has no attribute 'strip'";
                 details :=
                   [("status", PyInt 502);
                    ("error", PyStr "'int' object has no attribute 'strip'")];
                 attr_status_code := PyInt 502 |}),
     mk_state nat 0%nat
       [EvLog ERROR
          (download_failed_message "'int' object has no attribute 'strip'")
          (Some "AttributeError")]).
Proof.
  split; [lia|].
  apply (numeric_proxy_setting_fails nat unit Z (fun z : Z => z)
           (Scenario.session_get (Scenario.always 200))
           (Scenario.urlopen (fun _ => Scenario.answer 200))
           Scenario.record_fail_down Scenario.bad_config
           Scenario.build_headers Scenario.urlparse_path
           Scenario.Path_suffix (PyInt 502) Scenario.retry_statuses 2%nat
           tt "tok" "a/b.png" start 8080).
  - lia.
  - left. reflexivity.
Defined.

Lemma rejected_path_fails_without_call_witness :
  request nat unit Z (fun z : Z => z)
    (Scenario.session_get (Scenario.always 200))
    (Scenario.urlopen (fun _ => Scenario.answer 200))
    Scenario.record_fail_down Scenario.no_config Scenario.build_headers
    Scenario.urlparse_rejecting Scenario.Path_suffix (PyInt 502)
    Scenario.retry_statuses 2 tt "tok" "//[x/a.png" start
  = (Raise (Upstream
              {| message := download_failed_message "Invalid IPv6 URL";
                 details :=
                   [("status", PyInt 502); ("error", PyStr "Invalid IPv6 URL")];
                 attr_status_code := PyInt 502 |}),
     mk_state nat 0%nat
       [EvLog ERROR (download_failed_message "Invalid IPv6 URL")
          (Some "ValueError")]).
Proof.
  apply (rejected_path_fails_without_call nat unit Z (fun z : Z => z)
           (Scenario.session_get (Scenario.always 200))
           (Scenario.urlopen (fun _ => Scenario.answer 200))
           Scenario.record_fail_down Scenario.no_config
           Scenario.build_headers Scenario.urlparse_rejecting
           Scenario.Path_suffix (PyInt 502) Scenario.retry_statuses 2%nat
           tt "tok" "//[x/a.png" start "ValueError" "Invalid IPv6 URL").
  - left. reflexivity.
  - left. reflexivity.
  - reflexivity.
Defined.

Lemma calls_share_target_and_headers_witness :
  startswith "https://assets.grok.com/a/b.png" "https://assets.grok.com/"
  = true /\
  "https://assets.grok.com/a/b.png" = build_url (normalize_path "a/b.png") /\
  navigation_headers
    (Scenario.build_headers "tok" (Some "image/png")
       "https://assets.grok.com" "https://grok.com/")
  = request_headers Scenario.build_headers Scenario.urlparse_path
      Scenario.Path_suffix "tok" "a/b.png".
Proof.
  apply (calls_share_target_and_headers nat unit Z (fun z : Z => z)
           (Scenario.session_get (Scenario.always 401))
           (Scenario.urlopen (fun _ => Scenario.answer 401))
           Scenario.record_fail_down Scenario.no_config
           Scenario.build_headers Scenario.urlparse_path
           Scenario.Path_suffix (PyInt 502) Scenario.retry_statuses 2%nat
           tt "tok" "a/b.png" start
           (EvUrlopen "https://assets.grok.com/a/b.png"
              (navigation_headers
                 (Scenario.build_headers "tok" (Some "image/png")
                    "https://assets.grok.com" "https://grok.com/"))
              PyNone)).
  vm_compute. right. right. right. right. right. right. left. reflexivity.
Defined.

Lemma tier3_exception_hides_status_witness :
  fst (scripted_request Scenario.no_config (Scenario.always 401)
         (fun _ => Scenario.unauthorized) 2 "tok" "a/b.png" start)
  = Raise (Upstream
             {| message := download_failed_message "HTTP Error 401: Unauthorized";
                details :=
                  [("status", PyInt 502);
                   ("error", PyStr "HTTP Error 401: Unauthorized")];
                attr_status_code := PyInt 502 |}) /\
  filter is_record_fail
    (new_events nat start
       (snd (scripted_request Scenario.no_config (Scenario.always 401)
               (fun _ => Scenario.unauthorized) 2 "tok" "a/b.png" start)))
  = [].
Proof.
  apply (tier3_exception_hides_status nat unit Z (fun z : Z => z)
           (Scenario.session_get (Scenario.always 401))
           (Scenario.urlopen (fun _ => Scenario.unauthorized))
           Scenario.record_fail_down Scenario.no_config
           Scenario.build_headers Scenario.urlparse_path
           Scenario.Path_suffix (PyInt 502) Scenario.retry_statuses 2%nat
           tt "tok" "a/b.png" start "HTTPError"
           "HTTP Error 401: Unauthorized").
  - left. reflexivity.
  - left. reflexivity.
  - exists (Some "image/png"). reflexivity.
  - reflexivity.
  - reflexivity.
  - reflexivity.
Defined.

(** An asset proxy URL of white space only, no-break space included, reads as
    none: Tier 1 goes through the base proxy. *)
Example blank_asset_proxy_falls_back_to_base :
  resolved_proxies Scenario.blank_asset_config
  = Some [("http", "http://base:3128"); ("https", "http://base:3128")] /\
  map (fun ev => match ev with EvGet _ kw => kw_proxies kw | _ => None end)
    (filter is_transport_call
       (new_events nat start
          (snd (scripted_request Scenario.blank_asset_config
                  (Scenario.always 200) (fun _ => Scenario.answer 200)
                  2 "tok" "a/b.png" start))))
  = [Some [("http", "http://base:3128"); ("https", "http://base:3128")]].
Proof. split; vm_compute; reflexivity. Qed.

(** [lower] and [strip] on characters beyond ASCII. *)
Example lower_strip_latin1 :
  lower (String (ascii_of_nat 192) "bC") = String (ascii_of_nat 224) "bc" /\
  lower (String (ascii_of_nat 215) "") = String (ascii_of_nat 215) "" /\
  strip (String (ascii_of_nat 133) (String (ascii_of_nat 160) " a ")) = "a".
Proof. repeat split. Qed.
